(** * tslab: the Jupyter kernel front door ([src/index.ts]) and the
      executor behind it ([src/executor.ts])

    A shallow embedding of the message codec ([ZmqMessage]), the request
    handler ([JupyterHandlerImpl]) and the dispatcher ([ZmqServer]) of
    [src/index.ts], and of the executor [createExecutor] returns, followed
    by the properties of the wire protocol that the specification states
    about them and by further properties read off the code.

    Conventions of the embedding.
    - A [Buffer] is the byte string it holds.  A JavaScript string is
      modelled by the byte string of its UTF-8 encoding, which is what the
      socket writes for it and what a hash is fed with it; [toString] is
      the decoder of [buf.toString()], which reads well-formed UTF-8 as it
      is and puts U+FFFD in the place of what is not.
    - A JavaScript value that came out of [JSON.parse], or that the server
      builds as an object literal, is a [value]: a tree whose objects keep
      their properties in insertion order.  Numbers are the integers (the
      only number the server computes is the execution counter).  The
      types the source declares for what it parses ([HeaderMessage],
      [Object], [ExecuteRequest]) are not checked when the program runs,
      so a parsed header or content is whatever [value] the frame held;
      a statement that needs more says so ([nullish], [HeaderMessage]).
    - The node runtime the server calls into ([crypto], [JSON], the clock,
      string conversion) is the interface [Runtime]; the execution engine
      behind the handler is the interface [Engine]; the handler the server
      dispatches to is the interface [JupyterHandler], as in the source.
    - Effects are a state-and-exception monad [M] over a [World]: the
      handler object, the clock, and the chronological [trace] of what the
      process did to its surroundings (frames sent on a socket, lines
      written to the console, HMAC digests taken).
    - An [async] function is a computation of [M]: a rejected promise is a
      thrown exception, and [await] is sequencing.  The embedding follows
      one call of [handleShellMessage] from its first statement to its
      last; what other calls do between its [await]s, when the socket
      delivers several messages in one turn, is not part of it.
    - [init] (reading the connection file, binding the five sockets, the
      heartbeat echo) is outside the embedding; [handleShellMessage] is
      what [init] registers on the shell and the control socket.
    - The executor is embedded on its own, with its conventions, in the
      module [Executor]; the handler sees it through [Engine]. *)

From Stdlib Require Import String Ascii List ZArith Bool Lia DecimalString.
Import ListNotations.

Set Warnings "-register-all".
Local Open Scope string_scope.
Local Open Scope list_scope.

(** ** JavaScript values *)

Inductive value : Type :=
| VUndefined
| VNull
| VBool (b : bool)
| VNum (n : Z)
| VStr (s : string)
| VArr (items : list value)
| VObj (props : list (string * value)).

(** A [Buffer] is the byte string it holds. *)
Abbreviation Buffer := string (only parsing).

(** The bytes with these values. *)
Definition bytes (values : list nat) : Buffer :=
  string_of_list_ascii (map ascii_of_nat values).

Definition byte_in (lo hi : nat) (c : ascii) : bool :=
  Nat.leb lo (nat_of_ascii c) && Nat.leb (nat_of_ascii c) hi.

(** U+FFFD, the replacement character, in UTF-8. *)
Definition replacement : string := bytes [239; 191; 189].

(** The byte that may follow the lead byte [c] of a sequence of three or
    four bytes: a continuation byte, in a narrower range after [E0] and
    [ED] (no overlong form, no surrogate) and after [F0] and [F4] (no
    overlong form, nothing above U+10FFFF). *)
Definition second (c c1 : ascii) : bool :=
  let n := nat_of_ascii c in
  if Nat.eqb n 224 then byte_in 160 191 c1
  else if Nat.eqb n 237 then byte_in 128 159 c1
  else if Nat.eqb n 240 then byte_in 144 191 c1
  else if Nat.eqb n 244 then byte_in 128 143 c1
  else byte_in 128 191 c1.

(** [buf.toString()]: the bytes decoded as UTF-8.  A well-formed sequence
    is read as it is; where the bytes are not well-formed, the longest
    prefix of a well-formed sequence that is there, or else the one
    offending byte, becomes one U+FFFD, and decoding goes on after it. *)
Fixpoint toString (b : Buffer) : string :=
  match b with
  | EmptyString => ""
  | String c rest =>
      if Nat.ltb (nat_of_ascii c) 128 then String c (toString rest)
      else if byte_in 194 223 c then
        match rest with
        | String c1 rest1 =>
            if byte_in 128 191 c1 then String c (String c1 (toString rest1))
            else replacement ++ toString rest
        | EmptyString => replacement
        end
      else if byte_in 224 239 c then
        match rest with
        | String c1 rest1 =>
            if second c c1 then
              match rest1 with
              | String c2 rest2 =>
                  if byte_in 128 191 c2
                  then String c (String c1 (String c2 (toString rest2)))
                  else replacement ++ toString rest1
              | EmptyString => replacement
              end
            else replacement ++ toString rest
        | EmptyString => replacement
        end
      else if byte_in 240 244 c then
        match rest with
        | String c1 rest1 =>
            if second c c1 then
              match rest1 with
              | String c2 rest2 =>
                  if byte_in 128 191 c2 then
                    match rest2 with
                    | String c3 rest3 =>
                        if byte_in 128 191 c3
                        then String c (String c1 (String c2 (String c3 (toString rest3))))
                        else replacement ++ toString rest2
                    | EmptyString => replacement
                    end
                  else replacement ++ toString rest1
              | EmptyString => replacement
              end
            else replacement ++ toString rest
        | EmptyString => replacement
        end
      else replacement ++ toString rest
  end.

(** [buf.toString("hex")]: two lower-case hexadecimal digits for each
    byte. *)
Definition hex_digit (n : nat) : ascii :=
  nth n ["0"; "1"; "2"; "3"; "4"; "5"; "6"; "7"; "8"; "9";
         "a"; "b"; "c"; "d"; "e"; "f"]%char "0"%char.

Fixpoint toString_hex (b : Buffer) : string :=
  match b with
  | EmptyString => ""
  | String c rest =>
      String (hex_digit (nat_of_ascii c / 16))
        (String (hex_digit (nat_of_ascii c mod 16)) (toString_hex rest))
  end.

(** What JavaScript throws.  [TypeError] and [SyntaxError] are raised by
    the runtime, [Error] by [throw new Error(message)]; [Failure] stands
    for whatever a collaborator behind an interface throws. *)
Inductive exn : Type :=
| TypeError (what : string)
| SyntaxError (text : string)
| Error (message : string)
| Failure (what : string).

Inductive Result (A : Type) : Type :=
| Ok (a : A)
| Throw (e : exn).

Arguments Ok {A} a.
Arguments Throw {A} e.

(** The own property [k] of an object literal, [undefined] when absent. *)
Fixpoint own (props : list (string * value)) (k : string) : value :=
  match props with
  | [] => VUndefined
  | (k', v) :: rest => if String.eqb k' k then v else own rest k
  end.

(** [v.k] for the property names the server reads ([session], [username],
    [msg_type], [msg_id], [code]): reading a property of [null] or
    [undefined] throws, an object yields its own property, and no
    primitive or array defines any of these names. *)
Definition member (v : value) (k : string) : Result value :=
  match v with
  | VUndefined => Throw (TypeError ("Cannot read property '" ++ k ++ "' of undefined"))
  | VNull => Throw (TypeError ("Cannot read property '" ++ k ++ "' of null"))
  | VObj props => Ok (own props k)
  | _ => Ok VUndefined
  end.

(** [o.k = v] on the properties of an object: an existing property keeps
    its place, a new one goes last. *)
Fixpoint assign (props : list (string * value)) (k : string) (v : value)
  : list (string * value) :=
  match props with
  | [] => [(k, v)]
  | (k', v') :: rest =>
      if String.eqb k' k then (k, v) :: rest else (k', v') :: assign rest k v
  end.

Definition nullish (v : value) : bool :=
  match v with
  | VUndefined | VNull => true
  | _ => false
  end.

(** [interface HeaderMessage]: an object with these six properties, each a
    string. *)
Definition HeaderMessage (v : value) : Prop :=
  exists props,
    v = VObj props
    /\ Forall (fun k => exists s, own props k = VStr s)
         ["version"; "date"; "session"; "username"; "msg_type"; "msg_id"].

(** [buf.toJSON()], which [JSON.stringify] calls on a [Buffer]:
    [{type: "Buffer", data: [byte, ...]}]. *)
Definition Buffer_toJSON (b : Buffer) : value :=
  VObj [("type", VStr "Buffer");
        ("data", VArr (map (fun c => VNum (Z.of_nat (nat_of_ascii c)))
                           (list_ascii_of_string b)))].

(** ** The world around the server *)

Inductive Socket : Type := iopub | shell | control | stdin | hb.

Inductive Stream : Type := log | warn | error.

Inductive Event : Type :=
| Digest (key : string) (chunks : list string)
| Send (sock : Socket) (raw : list string)
| Console (stream : Stream) (args : list string).

(** The node runtime. *)
Class Runtime : Type := {
  (** [createHmac("sha256", key).update(data).digest()]: the bytes of the
      tag *)
  hmac_sha256 : string -> string -> Buffer;
  (** [JSON.parse(text)]; [None] when it throws a [SyntaxError] *)
  JSON_parse : string -> option value;
  (** [JSON.stringify(v)] *)
  JSON_stringify : value -> string;
  (** the conversion a template literal applies to [${v}]; it throws a
      [TypeError] on an object that has no primitive value *)
  String_of : value -> Result string;
  (** [new Date().toISOString()] at the n-th reading of the clock *)
  toISOString : nat -> string
}.

(** [createHmac("sha256", key).update(data).digest("hex")] *)
Definition hmac_sha256_hex {R : Runtime} (key data : string) : string :=
  toString_hex (hmac_sha256 key data).

Record World (H : Type) : Type := mkWorld {
  handler : H;
  clock : nat;
  trace : list Event
}.

Arguments mkWorld {H} handler clock trace.
Arguments handler {H} w.
Arguments clock {H} w.
Arguments trace {H} w.

(** ** The monad of effects *)

Definition M (H A : Type) : Type := World H -> Result A * World H.

Definition ret {H A} (a : A) : M H A := fun w => (Ok a, w).

Definition throw {H A} (e : exn) : M H A := fun w => (Throw e, w).

Definition bind {H A B} (c : M H A) (k : A -> M H B) : M H B :=
  fun w =>
    match c w with
    | (Ok a, w') => k a w'
    | (Throw e, w') => (Throw e, w')
    end.

Declare Scope js_scope.
Delimit Scope js_scope with js.
Notation "x <- c ;; k" := (bind c (fun x => k))
  (at level 61, c at next level, right associativity) : js_scope.
Notation "c ;; k" := (bind c (fun _ => k))
  (at level 61, right associativity) : js_scope.
Local Open Scope js_scope.

Definition lift {H A} (r : Result A) : M H A := fun w => (r, w).

Definition emit {H} (e : Event) : M H unit :=
  fun w => (Ok tt, mkWorld (handler w) (clock w) (trace w ++ [e])).

(** [try { body } finally { fin }]: [fin] runs whatever [body] did; the
    outcome is [body]'s unless [fin] itself throws. *)
Definition try_finally {H A} (body : M H A) (fin : M H unit) : M H A :=
  fun w =>
    match body w with
    | (r, w1) =>
        match fin w1 with
        | (Ok _, w2) => (r, w2)
        | (Throw e, w2) => (Throw e, w2)
        end
    end.

(** [new Date().toISOString()] *)
Definition Date_now {R : Runtime} {H} : M H string :=
  fun w => (Ok (toISOString (clock w)), mkWorld (handler w) (S (clock w)) (trace w)).

(** ** crypto: the [Hmac] object *)

Record Hmac : Type := mkHmac { hkey : string; chunks : list string }.

Definition createHmac_sha256 (key : string) : Hmac := mkHmac key [].

Definition update (hash : Hmac) (data : string) : Hmac :=
  mkHmac (hkey hash) (chunks hash ++ [data]).

(** [hash.digest("hex")]: the tag of the chunks fed so far, which is the
    tag of their concatenation. *)
Definition digest_hex {R : Runtime} {H} (hash : Hmac) : M H string :=
  emit (Digest (hkey hash) (chunks hash)) ;;
  ret (hmac_sha256_hex (hkey hash) (String.concat "" (chunks hash))).

(** ** class ZmqMessage *)

Record ZmqMessage : Type := mkZmqMessage {
  identity : string;
  delim : string;
  hmac : string;
  header : value;
  parent : value;
  metadata : value;
  content : value;
  extra : list Buffer
}.

Section Codec.

Context {R : Runtime} {H : Type}.

Definition verifyHmac (key hmac : string) (rest : list Buffer) : M H unit :=
  let hash := fold_left update rest (createHmac_sha256 key) in
  hex <- digest_hex hash ;;
  if String.eqb hex hmac then ret tt
  else throw (Error ("invalid hmac " ++ hmac ++ "; want " ++ hex)).

(** [raw[i].toString()]: [raw[i]] is [undefined] past the end. *)
Definition frame (raw : list Buffer) (i : nat) : M H string :=
  match nth_error raw i with
  | Some b => ret (toString b)
  | None => throw (TypeError "Cannot read property 'toString' of undefined")
  end.

Definition parse (text : string) : M H value :=
  match JSON_parse text with
  | Some v => ret v
  | None => throw (SyntaxError text)
  end.

Definition fromRaw (key : string) (raw : list Buffer) : M H ZmqMessage :=
  identity <- frame raw 0 ;;
  delim <- frame raw 1 ;;
  hmac <- frame raw 2 ;;
  header <- (t <- frame raw 3 ;; parse t) ;;
  parent <- (t <- frame raw 4 ;; parse t) ;;
  metadata <- (t <- frame raw 5 ;; parse t) ;;
  content <- (t <- frame raw 6 ;; parse t) ;;
  let extra := skipn 7 raw in
  verifyHmac key hmac (skipn 3 raw) ;;
  ret (mkZmqMessage identity delim hmac header parent metadata content extra).

Definition createReply (this : ZmqMessage) : M H ZmqMessage :=
  date <- Date_now ;;
  session <- lift (member (header this) "session") ;;
  username <- lift (member (header this) "username") ;;
  msg_type <- lift (member (header this) "msg_type") ;;
  msg_id <- lift (member (header this) "msg_id") ;;
  ret (mkZmqMessage (identity this) (delim this) ""
         (VObj [("version", VStr "5.3"); ("date", VStr date);
                ("session", session); ("username", username);
                ("msg_type", msg_type); ("msg_id", msg_id)])
         (header this) (VObj []) (VObj []) []).

(** The frames [signAndSend] builds: the four JSON bodies and the extras
    ([bodies]), and the whole batch ([wire]). *)
Definition bodies (this : ZmqMessage) : list string :=
  [JSON_stringify (header this); JSON_stringify (parent this);
   JSON_stringify (metadata this); JSON_stringify (content this)]
  ++ map (fun e => JSON_stringify (Buffer_toJSON e)) (extra this).

Definition tag (key : string) (frames : list string) : string :=
  hmac_sha256_hex key (String.concat "" frames).

Definition wire (key : string) (this : ZmqMessage) : list string :=
  ([identity this; delim this] ++ [tag key (bodies this)]) ++ bodies this.

Definition signAndSend (key : string) (sock : Socket) (this : ZmqMessage) : M H unit :=
  let heads := [identity this; delim this] in
  let bodies := bodies this in
  let hash := fold_left update bodies (createHmac_sha256 key) in
  hex <- digest_hex hash ;;
  let heads := heads ++ [hex] in
  let raw := heads ++ bodies in
  emit (Send sock raw).

(** [reply.header.msg_type = t] on a reply fresh from [createReply]. *)
Definition set_msg_type (reply : ZmqMessage) (t : string) : ZmqMessage :=
  mkZmqMessage (identity reply) (delim reply) (hmac reply)
    (match header reply with
     | VObj props => VObj (assign props "msg_type" (VStr t))
     | v => v
     end)
    (parent reply) (metadata reply) (content reply) (extra reply).

Definition set_content (reply : ZmqMessage) (c : value) : ZmqMessage :=
  mkZmqMessage (identity reply) (delim reply) (hmac reply) (header reply)
    (parent reply) (metadata reply) c (extra reply).

End Codec.

(** ** The reply payloads ([KernelInfoReply], [ExecuteReply],
       [IsCompleteReply], [ShutdownReply]) *)

Record LanguageInfo : Type := mkLanguageInfo {
  name : string;
  version : string;
  mimetype : string;
  file_extension : string
}.

Record KernelInfoReply : Type := mkKernelInfoReply {
  protocol_version : string;
  implementation : string;
  implementation_version : string;
  language_info : LanguageInfo;
  banner : string
}.

Record ExecuteReply : Type := mkExecuteReply {
  status : string;
  execution_count : Z
}.

Record IsCompleteReply : Type := mkIsCompleteReply {
  complete_status : string
}.

Record ShutdownReply : Type := mkShutdownReply {
  restart : bool
}.

(** A payload stored in [reply.content : Object]: the object literal the
    handler returned, property by property in the order it was written. *)
Definition KernelInfoReply_object (r : KernelInfoReply) : value :=
  VObj [("protocol_version", VStr (protocol_version r));
        ("implementation", VStr (implementation r));
        ("implementation_version", VStr (implementation_version r));
        ("language_info",
          VObj [("name", VStr (name (language_info r)));
                ("version", VStr (version (language_info r)));
                ("mimetype", VStr (mimetype (language_info r)));
                ("file_extension", VStr (file_extension (language_info r)))]);
        ("banner", VStr (banner r))].

Definition ExecuteReply_object (r : ExecuteReply) : value :=
  VObj [("status", VStr (status r)); ("execution_count", VNum (execution_count r))].

Definition IsCompleteReply_object (r : IsCompleteReply) : value :=
  VObj [("status", VStr (complete_status r))].

Definition ShutdownReply_object (r : ShutdownReply) : value :=
  VObj [("restart", VBool (restart r))].

(** ** interface JupyterHandler *)

(** A line written to the console: the stream and the arguments. *)
Definition Line : Type := Stream * list string.

(** What a method of a collaborator does: it returns or throws, leaves
    its object in a new state, and may have written to the console. *)
Definition Method (H A : Type) : Type := H -> Result A * H * list Line.

Class JupyterHandler (H : Type) : Type := {
  handleKernel : Method H KernelInfoReply;
  handleExecute : value -> Method H ExecuteReply;
  handleIsComplete : value -> Method H IsCompleteReply;
  handleShutdown : value -> Method H ShutdownReply
}.

Definition console (l : Line) : Event := Console (fst l) (snd l).

(** [this.handler.method(...)] *)
Definition call {H A} (method : Method H A) : M H A :=
  fun w =>
    match method (handler w) with
    | (r, h, out) => (r, mkWorld h (clock w) (trace w ++ map console out))
    end.

(** ** class JupyterHandlerImpl *)

(** The converter and the executor built on it, as the handler uses them. *)
Class Engine (E : Type) : Type := {
  (** [executor.execute(src)]: whether [src] ran successfully (the value
      its promise resolves to), the engine afterwards, the console output.
      An [async] function returns its promise and never throws. *)
  execute : value -> E -> bool * E * list Line;
  (** [converter.close()] *)
  close : E -> E
}.

Record JupyterHandlerImpl (E : Type) : Type := mkJupyterHandlerImpl {
  ts : bool;
  execCount : Z;
  engine : E
}.

Arguments mkJupyterHandlerImpl {E} ts execCount engine.
Arguments ts {E} j.
Arguments execCount {E} j.
Arguments engine {E} j.

(** [++n] on a number holding a natural number: exact below 2^53, where
    the doubles stop telling [n] from [n + 1]. *)
Definition increment (n : Z) : Z := if (n <? 2 ^ 53)%Z then (n + 1)%Z else n.

Module JupyterHandlerImpl.

Section Methods.

Context {R : Runtime} {E : Type} {Eng : Engine E}.

(** [new JupyterHandlerImpl(ts)], on the engine [createConverter] and
    [createExecutor] set up. *)
Definition new (ts : bool) (e : E) : JupyterHandlerImpl E :=
  mkJupyterHandlerImpl ts 0%Z e.

Definition handleKernel : Method (JupyterHandlerImpl E) KernelInfoReply :=
  fun this =>
    (Ok (mkKernelInfoReply "5.3"
           (if ts this then "tslab" else "jslab")
           "1.0.0"
           (mkLanguageInfo "javascript" "" "" (if ts this then ".ts" else ".js"))
           "TypeScript"),
     this, []).

Definition handleExecute (req : value) : Method (JupyterHandlerImpl E) ExecuteReply :=
  fun this =>
    match member req "code" with
    | Throw e => (Throw e, this, [])
    | Ok code =>
        match execute code (engine this) with
        | (_, e, out) =>
            let n := increment (execCount this) in
            (Ok (mkExecuteReply "ok" n), mkJupyterHandlerImpl (ts this) n e, out)
        end
    end.

Definition handleIsComplete (req : value) : Method (JupyterHandlerImpl E) IsCompleteReply :=
  fun this => (Ok (mkIsCompleteReply "complete"), this, []).

Definition handleShutdown (req : value) : Method (JupyterHandlerImpl E) ShutdownReply :=
  fun this =>
    (Ok (mkShutdownReply false),
     mkJupyterHandlerImpl (ts this) (execCount this) (close (engine this)),
     [(log, ["shutdown_request:"; JSON_stringify req])]).

End Methods.

End JupyterHandlerImpl.

(** [class JupyterHandlerImpl implements JupyterHandler] *)
#[global] Instance JupyterHandlerImpl_handler {R : Runtime} {E : Type} {Eng : Engine E}
  : JupyterHandler (JupyterHandlerImpl E) := {
  handleKernel := JupyterHandlerImpl.handleKernel;
  handleExecute := JupyterHandlerImpl.handleExecute;
  handleIsComplete := JupyterHandlerImpl.handleIsComplete;
  handleShutdown := JupyterHandlerImpl.handleShutdown
}.

(** ** class ZmqServer *)

Record ConnectionInfo : Type := mkConnectionInfo {
  shell_port : Z;
  iopub_port : Z;
  stdin_port : Z;
  control_port : Z;
  hb_port : Z;
  ip : string;
  key : string;
  transport : string;
  signature_scheme : string;
  kernel_name : string
}.

Record ZmqServer : Type := mkZmqServer {
  configPath : value;
  connInfo : ConnectionInfo
}.

(** [switch (t) { case s: ... }] compares with [===]. *)
Definition is_case (t : value) (s : string) : bool :=
  match t with
  | VStr s' => String.eqb s' s
  | _ => false
  end.

Module ZmqServer.

Section Methods.

Context {R : Runtime} {H : Type} {JH : JupyterHandler H}.

Variable this : ZmqServer.

Definition publishStatus (status : string) (parent : ZmqMessage) : M H unit :=
  reply <- createReply parent ;;
  let reply := set_content reply (VObj [("execution_state", VStr status)]) in
  let reply := set_msg_type reply "status" in
  signAndSend (key (connInfo this)) iopub reply.

Definition handleKernelInfo (sock : Socket) (msg : ZmqMessage) : M H unit :=
  reply <- createReply msg ;;
  let reply := set_msg_type reply "kernel_info_reply" in
  c <- call handleKernel ;;
  let reply := set_content reply (KernelInfoReply_object c) in
  signAndSend (key (connInfo this)) sock reply.

Definition handleExecute (sock : Socket) (msg : ZmqMessage) : M H unit :=
  reply <- createReply msg ;;
  let reply := set_msg_type reply "execute_reply" in
  c <- call (handleExecute (content msg)) ;;
  let reply := set_content reply (ExecuteReply_object c) in
  signAndSend (key (connInfo this)) sock reply.

Definition handleIsComplete (sock : Socket) (msg : ZmqMessage) : M H unit :=
  reply <- createReply msg ;;
  let reply := set_msg_type reply "is_complete_reply" in
  c <- call (handleIsComplete (content msg)) ;;
  let reply := set_content reply (IsCompleteReply_object c) in
  signAndSend (key (connInfo this)) sock reply.

Definition handleShutdown (sock : Socket) (msg : ZmqMessage) : M H unit :=
  reply <- createReply msg ;;
  let reply := set_msg_type reply "shutdown_reply" in
  c <- call (handleShutdown (content msg)) ;;
  let reply := set_content reply (ShutdownReply_object c) in
  signAndSend (key (connInfo this)) sock reply.

(** The [switch] of [handleShellMessage]. *)
Definition route (sock : Socket) (msg : ZmqMessage) : M H unit :=
  t <- lift (member (header msg) "msg_type") ;;
  if is_case t "kernel_info_request" then handleKernelInfo sock msg
  else if is_case t "execute_request" then handleExecute sock msg
  else if is_case t "is_complete_request" then handleIsComplete sock msg
  else if is_case t "shutdown_request" then handleShutdown sock msg
  else (s <- lift (String_of t) ;;
        emit (Console warn [("unknown msg_type: " ++ s)%string])).

Definition handleShellMessage (sock : Socket) (args : list Buffer) : M H unit :=
  msg <- fromRaw (key (connInfo this)) args ;;
  publishStatus "busy" msg ;;
  try_finally (route sock msg) (publishStatus "idle" msg).

End Methods.

End ZmqServer.

(** ** main *)

(** [path.basename(p)] on a POSIX path: the last non-empty component. *)
Fixpoint basename_from (cur last : string) (p : string) : string :=
  match p with
  | EmptyString => if String.eqb cur "" then last else cur
  | String c rest =>
      if Ascii.eqb c "/"
      then basename_from "" (if String.eqb cur "" then last else cur) rest
      else basename_from (cur ++ String c "") last rest
  end.

Definition basename (p : string) : string := basename_from "" "" p.

(** [s.startsWith(p)] *)
Definition startsWith (s p : string) : bool := String.prefix p s.

Section Main.

Context {E : Type}.

(** [main()], up to [server.init()]: the handler and the configuration
    path the server is constructed with, for the command line [argv].
    [e] is the engine the handler's constructor sets up. *)
Definition main (argv : list string) (e : E) : Result (JupyterHandlerImpl E * value) :=
  match nth_error argv 1 with
  | None => Throw (TypeError "The path argument must be of type string")
  | Some script =>
      let cmd := basename script in
      let ts := false in
      let ts := if startsWith cmd "ts" then true else ts in
      let configPath :=
        match nth_error argv 2 with Some p => VStr p | None => VUndefined end in
      Ok (JupyterHandlerImpl.new true e, configPath)
  end.

(** The kernel variant the command line asks for: the [ts] flag [main]
    computes from the name the process was invoked under. *)
Definition invoked_as_ts (argv : list string) : bool :=
  match nth_error argv 1 with
  | None => false
  | Some script => startsWith (basename script) "ts"
  end.

End Main.

(** ** ZmqMessage.newIdentity *)

(** [s.substr(from)] *)
Definition substr_from (s : string) (from : nat) : string :=
  substring from (String.length s - from) s.

(** [newIdentity()] when [randomBytes(16)] yields [random]. *)
Definition newIdentity (random : Buffer) : string :=
  let hex := toString_hex random in
  substring 0 8 hex ++ "-" ++ substr_from hex 8.

(** * The executor ([src/executor.ts])

    [createExecutor(rootDir, conv, console)] returns a closure over the
    variables [locals], [exports], [prevDecl] and [interruptPromise]; the
    embedding is the record [State] of these variables and a function of
    the state for each method the closure returns.

    - The converter ([./converter]) and the [vm] module are interfaces:
      [Converter] has the methods of [conv] that the executor calls,
      [JavaScript] has the values of the language, the operations on the
      object [locals] that the executor itself performs, and
      [vm.runInContext].  What the code of a cell does through the sandbox
      (the [get] trap of the proxy, the [exports] proxy, the hooked
      [require]) happens inside [runInContext], which returns [locals] as
      the code left it.
    - What the executor writes through the [ConsoleInterface] it was given
      is its [Output], in order; a call of [vm.runInContext] is recorded
      in it too.
    - [execute] is [async]: it runs to its only [await] ([Awaiting]) or
      to its end ([Settled]); [resume] is what it does once the race it
      awaits has settled.  The interrupt promises are numbered: the state
      holds the number of the pending one, and those before it have been
      rejected with [interrupted]. *)

Module Executor.

(** The part of a diagnostic, and of the result of [conv.convert], that
    the executor reads. *)
Record Position : Type := mkPosition { line : Z; character : Z }.

Record Diagnostic : Type := mkDiagnostic { start : Position; messageText : string }.

Record ConvertResult : Type := mkConvertResult {
  diagnostics : list Diagnostic;
  output : option string;
  declOutput : option string;
  hasToplevelAwait : bool;
  lastExpressionVar : option string
}.

(** [!s] on a string that may be [undefined]. *)
Definition blank (s : option string) : bool :=
  match s with
  | None => true
  | Some s => String.eqb s ""
  end.

(** [s || ""] *)
Definition or_empty (s : option string) : string :=
  match s with
  | Some s => s
  | None => ""
  end.

Class JavaScript : Type := {
  (** the values of the language *)
  V : Type;
  (** the object [locals] *)
  Locals : Type;
  (** [{}] *)
  empty : Locals;
  (** [locals[k]] *)
  get : Locals -> string -> V;
  (** [delete locals[k]] *)
  delete : Locals -> string -> Locals;
  (** [Object.getOwnPropertyNames(locals)] *)
  getOwnPropertyNames : Locals -> list string;
  (** [v == null] *)
  is_null : V -> bool;
  (** [if (v)] *)
  truthy : V -> bool;
  (** [vm.runInContext(code, sandbox, {breakOnSigint: true})] on the
      sandbox over [locals]: what the code returned or threw, and
      [locals] afterwards *)
  runInContext : string -> Locals -> Result V * Locals
}.

Class Converter : Type := {
  QuickInfo : Type;
  CompletionInfo : Type;
  IsCompleteResult : Type;
  (** [conv.convert(prevDecl, src)] *)
  convert : string -> string -> Result ConvertResult;
  (** [conv.inspect(prevDecl, src, position)] *)
  conv_inspect : string -> string -> Z -> QuickInfo;
  (** [conv.complete(prevDecl, src, position)] *)
  conv_complete : string -> string -> Z -> CompletionInfo;
  (** [conv.isCompleteCode(src)] *)
  conv_isCompleteCode : string -> IsCompleteResult
}.

Section Model.

Context {J : JavaScript} {C : Converter}.

(** An argument of [console.error] or [console.log]. *)
Inductive Arg : Type :=
| Text (s : string)
| Number (n : Z)
| Thrown (e : exn)
| Shown (v : V).

Inductive Output : Type :=
| console_error (args : list Arg)
| console_log (args : list Arg)
| run (code : string)
| conv_close.

Record State : Type := mkState {
  locals : Locals;
  (** how many [exports] proxies [createExports] has made; [exports] is
      the last of them, and [null] before the first *)
  exports : nat;
  prevDecl : string;
  interruptPromise : nat
}.

Definition createExecutor : State := mkState empty 0 "" 0.

(** [new Error("Interrupted asynchronously")] *)
Definition interrupted : exn := Error "Interrupted asynchronously".

(** [interrupt()]: the pending interrupt promise is rejected, and a new
    one takes its place. *)
Definition interrupt (this : State) : State :=
  mkState (locals this) (exports this) (prevDecl this) (S (interruptPromise this)).

(** Whether the [n]-th interrupt promise has been rejected. *)
Definition rejected (n : nat) (this : State) : bool :=
  (n <? interruptPromise this)%nat.

(** How a promise settles. *)
Inductive Settlement : Type :=
| Fulfilled
| Rejected (e : exn).

(** [Promise.race([promise, interruptPromise])], for the [n]-th interrupt
    promise: [own] is how [promise] has settled, if it has and did so
    first; the race is pending while neither has settled. *)
Definition race (own : option Settlement) (n : nat) (this : State)
  : option Settlement :=
  match own with
  | Some s => Some s
  | None => if rejected n this then Some (Rejected interrupted) else None
  end.

(** Where a call of [execute] stands when it gives back control: the
    promise it returned is settled, or it awaits the race of the promise
    of the cell with the [n]-th interrupt promise. *)
Inductive Progress : Type :=
| Settled (r : Result bool)
| Awaiting (converted : ConvertResult) (promise : V) (n : nat).

Definition newline : string := String (ascii_of_nat 10) "".

(** The code [execute] hands to the virtual machine; [converted.output]
    is a string, and not the empty one, where it does. *)
Definition wrapped (converted : ConvertResult) : string :=
  let prefix :=
    if hasToplevelAwait converted then "(async function() { " else "(function() { " in
  prefix ++ or_empty (output converted) ++ newline ++ "})()".

(** The line [execute] writes for a diagnostic. *)
Definition report (diag : Diagnostic) : Output :=
  console_error [Text "%d:%d - %s";
                 Number (line (start diag) + 1);
                 Number (character (start diag) + 1);
                 Text (messageText diag)].

(** [execute], from the assignment to [prevDecl] after the [await] to
    its end. *)
Definition finish (converted : ConvertResult) (this : State)
  : bool * State * list Output :=
  let this := mkState (locals this) (exports this)
                (or_empty (declOutput converted)) (interruptPromise this) in
  match lastExpressionVar converted with
  | Some x =>
      if negb (String.eqb x "") && negb (is_null (get (locals this) x))
      then
        let ret := get (locals this) x in
        (true,
         mkState (delete (locals this) x) (exports this) (prevDecl this)
           (interruptPromise this),
         [console_log [Shown ret]])
      else (true, this, [])
  | None => (true, this, [])
  end.

(** [execute(src)], up to its [await]. *)
Definition execute (src : string) (this : State) : Progress * State * list Output :=
  match convert (prevDecl this) src with
  | Throw e => (Settled (Throw e), this, [])
  | Ok converted =>
      if (0 <? length (diagnostics converted))%nat
      then (Settled (Ok false), this, map report (diagnostics converted))
      else if blank (output converted)
      then (Settled (Ok true),
            mkState (locals this) (exports this)
              (or_empty (declOutput converted)) (interruptPromise this),
            [])
      else
        let this := mkState (locals this) (S (exports this)) (prevDecl this)
                      (interruptPromise this) in
        match runInContext (wrapped converted) (locals this) with
        | (Throw e, l) =>
            (Settled (Ok false),
             mkState l (exports this) (prevDecl this) (interruptPromise this),
             [run (wrapped converted); console_error [Thrown e]])
        | (Ok ret, l) =>
            let this := mkState l (exports this) (prevDecl this)
                          (interruptPromise this) in
            if hasToplevelAwait converted && truthy ret
            then (Awaiting converted ret (interruptPromise this), this,
                  [run (wrapped converted)])
            else
              match finish converted this with
              | (ok, this, out) =>
                  (Settled (Ok ok), this, run (wrapped converted) :: out)
              end
        end
  end.

(** [execute], from the [await] on, once the race has settled. *)
Definition resume (converted : ConvertResult) (settled : Settlement) (this : State)
  : bool * State * list Output :=
  match settled with
  | Rejected e => (false, this, [console_error [Thrown e]])
  | Fulfilled => finish converted this
  end.

Definition inspect (src : string) (position : Z) (this : State) : QuickInfo :=
  conv_inspect (prevDecl this) src position.

Definition complete (src : string) (position : Z) (this : State) : CompletionInfo :=
  conv_complete (prevDecl this) src position.

Definition reset (this : State) : State :=
  mkState (fold_left delete (getOwnPropertyNames (locals this)) (locals this))
    (exports this) "" (interruptPromise this).

Definition isCompleteCode (src : string) (this : State) : IsCompleteResult :=
  conv_isCompleteCode src.

Definition close (this : State) : list Output := [conv_close].

End Model.

End Executor.

(** ** A runtime to compute with

    An instance of each interface, small enough to evaluate, on which the
    theorems below are instantiated: [JSON] on the fragment with integer
    numbers and ASCII text, a keyed checksum in the place of HMAC-SHA256,
    a clock that counts, and two engines. *)

Module Sample.

Definition quote : string := String (ascii_of_nat 34) "".

Definition hex (n : nat) : string :=
  String (nth n ["0"; "1"; "2"; "3"; "4"; "5"; "6"; "7"; "8"; "9";
                 "a"; "b"; "c"; "d"; "e"; "f"]%char "0"%char) "".

Definition decimal (n : Z) : string := NilEmpty.string_of_int (Z.to_int n).

(** [JSON.stringify]: the text of a string literal. *)
Definition escape (c : ascii) : string :=
  let n := nat_of_ascii c in
  if Nat.eqb n 34 then "\" ++ quote
  else if Nat.eqb n 92 then "\\"
  else if Nat.eqb n 8 then "\b"
  else if Nat.eqb n 9 then "\t"
  else if Nat.eqb n 10 then "\n"
  else if Nat.eqb n 12 then "\f"
  else if Nat.eqb n 13 then "\r"
  else if Nat.ltb n 32 then "\u00" ++ hex (n / 16) ++ hex (n mod 16)
  else String c "".

Fixpoint escaped (s : string) : string :=
  match s with
  | EmptyString => ""
  | String c rest => escape c ++ escaped rest
  end.

Definition literal (s : string) : string := quote ++ escaped s ++ quote.

Fixpoint stringify (v : value) : string :=
  match v with
  | VUndefined => "null"
  | VNull => "null"
  | VBool true => "true"
  | VBool false => "false"
  | VNum n => decimal n
  | VStr s => literal s
  | VArr items => "[" ++ String.concat "," (map stringify items) ++ "]"
  | VObj props =>
      "{" ++ String.concat ","
               (flat_map (fun '(k, v) =>
                            match v with
                            | VUndefined => []
                            | _ => [(literal k ++ ":" ++ stringify v)%string]
                            end) props) ++ "}"
  end.

(** [JSON.parse]: a recursive-descent reader; [fuel] bounds the nesting
    and the number of elements read, the length of the text is enough. *)
Definition is_space (c : ascii) : bool :=
  let n := nat_of_ascii c in
  Nat.eqb n 32 || Nat.eqb n 9 || Nat.eqb n 10 || Nat.eqb n 13.

Fixpoint skip (s : string) : string :=
  match s with
  | String c rest => if is_space c then skip rest else s
  | EmptyString => s
  end.

Definition digit (c : ascii) : option Z :=
  let n := nat_of_ascii c in
  if Nat.leb 48 n && Nat.leb n 57 then Some (Z.of_nat (n - 48)) else None.

Fixpoint digits (acc : Z) (s : string) : Z * string :=
  match s with
  | String c rest =>
      match digit c with
      | Some d => digits (acc * 10 + d) rest
      | None => (acc, s)
      end
  | EmptyString => (acc, s)
  end.

(** An integer numeral: [-]? then [0] or a digit string with no leading
    zero; a fraction or an exponent is outside the fragment. *)
Definition number (s : string) : option (Z * string) :=
  let (sign, s1) :=
    match s with
    | String "-" rest => ((-1)%Z, rest)
    | _ => (1%Z, s)
    end in
  match s1 with
  | String c rest =>
      match digit c with
      | None => None
      | Some d =>
          let (n, s2) := if Z.eqb d 0 then (0%Z, rest) else digits d rest in
          match s2 with
          | String c2 _ =>
              if (c2 =? ".")%char || (c2 =? "e")%char || (c2 =? "E")%char
                 || (match digit c2 with Some _ => true | None => false end)
              then None else Some ((sign * n)%Z, s2)
          | EmptyString => Some ((sign * n)%Z, s2)
          end
      end
  | EmptyString => None
  end.

Definition hexval (c : ascii) : option nat :=
  let n := nat_of_ascii c in
  if Nat.leb 48 n && Nat.leb n 57 then Some (n - 48)
  else if Nat.leb 97 n && Nat.leb n 102 then Some (n - 87)
  else if Nat.leb 65 n && Nat.leb n 70 then Some (n - 55)
  else None.

(** The characters of a string literal after its opening quote. *)
Fixpoint characters (s : string) : option (string * string) :=
  match s with
  | EmptyString => None
  | String c rest =>
      let n := nat_of_ascii c in
      if Nat.eqb n 34 then Some ("", rest)
      else if Nat.ltb n 32 then None
      else if Nat.eqb n 92 then
        match rest with
        | String e rest' =>
            let one (c' : ascii) :=
              match characters rest' with
              | Some (t, r) => Some (String c' t, r)
              | None => None
              end in
            if (e =? "n")%char then one (ascii_of_nat 10)
            else if (e =? "t")%char then one (ascii_of_nat 9)
            else if (e =? "r")%char then one (ascii_of_nat 13)
            else if (e =? "b")%char then one (ascii_of_nat 8)
            else if (e =? "f")%char then one (ascii_of_nat 12)
            else if (e =? "/")%char then one "/"%char
            else if (e =? "\")%char then one "\"%char
            else if Nat.eqb (nat_of_ascii e) 34 then one (ascii_of_nat 34)
            else if (e =? "u")%char then
              match rest' with
              | String "0" (String "0" (String h (String l rest''))) =>
                  match hexval h, hexval l, characters rest'' with
                  | Some a, Some b, Some (t, r) =>
                      if Nat.ltb (16 * a + b) 128
                      then Some (String (ascii_of_nat (16 * a + b)) t, r)
                      else None
                  | _, _, _ => None
                  end
              | _ => None
              end
            else None
        | EmptyString => None
        end
      else
        match characters rest with
        | Some (t, r) => Some (String c t, r)
        | None => None
        end
  end.

(** A later [k: v] overwrites an earlier one, which keeps its place. *)
Definition member_first (k : string) (v : value) (later : list (string * value))
  : list (string * value) :=
  if existsb (fun p => String.eqb (fst p) k) later
  then (k, own later k) :: filter (fun p => negb (String.eqb (fst p) k)) later
  else (k, v) :: later.

Definition keyword (k : string) (v : value) (s : string) : option (value * string) :=
  if String.prefix k s
  then Some (v, substring (String.length k) (String.length s - String.length k) s)
  else None.

Fixpoint element (fuel : nat) (s : string) : option (value * string) :=
  match fuel with
  | O => None
  | S fuel =>
      match skip s with
      | String "n" _ => keyword "null" VNull (skip s)
      | String "t" _ => keyword "true" (VBool true) (skip s)
      | String "f" _ => keyword "false" (VBool false) (skip s)
      | String "[" rest =>
          match skip rest with
          | String "]" rest' => Some (VArr [], rest')
          | _ =>
              match elements fuel rest with
              | Some (items, rest') => Some (VArr items, rest')
              | None => None
              end
          end
      | String "{" rest =>
          match skip rest with
          | String "}" rest' => Some (VObj [], rest')
          | _ =>
              match members fuel rest with
              | Some (props, rest') => Some (VObj props, rest')
              | None => None
              end
          end
      | String c rest =>
          if Nat.eqb (nat_of_ascii c) 34 then
            match characters rest with
            | Some (t, r) => Some (VStr t, r)
            | None => None
            end
          else
            match number (String c rest) with
            | Some (n, r) => Some (VNum n, r)
            | None => None
            end
      | EmptyString => None
      end
  end
with elements (fuel : nat) (s : string) : option (list value * string) :=
  match fuel with
  | O => None
  | S fuel =>
      match element fuel s with
      | Some (v, rest) =>
          match skip rest with
          | String "," rest' =>
              match elements fuel rest' with
              | Some (vs, r) => Some (v :: vs, r)
              | None => None
              end
          | String "]" rest' => Some ([v], rest')
          | _ => None
          end
      | None => None
      end
  end
with members (fuel : nat) (s : string) : option (list (string * value) * string) :=
  match fuel with
  | O => None
  | S fuel =>
      match skip s with
      | String q rest =>
          if Nat.eqb (nat_of_ascii q) 34 then
            match characters rest with
            | Some (k, rest1) =>
                match skip rest1 with
                | String ":" rest2 =>
                    match element fuel rest2 with
                    | Some (v, rest3) =>
                        match skip rest3 with
                        | String "," rest4 =>
                            match members fuel rest4 with
                            | Some (ps, r) => Some (member_first k v ps, r)
                            | None => None
                            end
                        | String "}" rest4 => Some ([(k, v)], rest4)
                        | _ => None
                        end
                    | None => None
                    end
                | _ => None
                end
            | None => None
            end
          else None
      | EmptyString => None
      end
  end.

Definition read (text : string) : option value :=
  match element (2 * String.length text + 2) text with
  | Some (v, rest) =>
      match skip rest with
      | EmptyString => Some v
      | _ => None
      end
  | None => None
  end.

(** In the place of HMAC-SHA256: a keyed checksum, four bytes. *)
Fixpoint mix (acc : Z) (s : string) : Z :=
  match s with
  | EmptyString => acc
  | String c rest => mix ((acc * 31 + Z.of_nat (nat_of_ascii c)) mod 2 ^ 32)%Z rest
  end.

Fixpoint big_endian (n : nat) (x : Z) : Buffer :=
  match n with
  | O => ""
  | S n => big_endian n (x / 256)%Z ++ String (ascii_of_nat (Z.to_nat (x mod 256)%Z)) ""
  end.

Definition checksum (key data : string) : Buffer :=
  big_endian 4 (mix (mix 7%Z key) data).

(** The first error of a list of results, or all their values. *)
Fixpoint all_ok (rs : list (Result string)) : Result (list string) :=
  match rs with
  | [] => Ok []
  | Throw e :: _ => Throw e
  | Ok s :: rest =>
      match all_ok rest with
      | Ok ss => Ok (s :: ss)
      | Throw e => Throw e
      end
  end.

(** The conversion to a string.  An array is its elements joined by
    commas, [null] and [undefined] among them left empty.  An object is
    [[object Object]] by the [toString] it inherits; with a property
    [toString] of its own, which in a value that was parsed is not a
    function, it has no primitive value. *)
Fixpoint String_of_value (v : value) : Result string :=
  match v with
  | VUndefined => Ok "undefined"
  | VNull => Ok "null"
  | VBool true => Ok "true"
  | VBool false => Ok "false"
  | VNum n => Ok (decimal n)
  | VStr s => Ok s
  | VArr items =>
      match all_ok (map (fun i => match i with
                                  | VUndefined | VNull => Ok ""
                                  | _ => String_of_value i
                                  end) items) with
      | Ok ss => Ok (String.concat "," ss)
      | Throw e => Throw e
      end
  | VObj props =>
      if existsb (fun p => String.eqb (fst p) "toString") props
      then Throw (TypeError "Cannot convert object to primitive value")
      else Ok "[object Object]"
  end.

#[export] Instance runtime : Runtime := {
  hmac_sha256 := checksum;
  JSON_parse := read;
  JSON_stringify := stringify;
  String_of := String_of_value;
  toISOString := fun n => ("2019-11-02T10:00:" ++ decimal (Z.of_nat (10 + n)) ++ ".000Z")%string
}.

(** Two engines without state: one runs every cell, one whose converter
    reports a diagnostic for every cell, so that [execute] resolves to
    [false]. *)
Inductive Accepting : Type := accepting.
Inductive Rejecting : Type := rejecting.

#[export] Instance Accepting_engine : Engine Accepting := {
  execute := fun _ e => (true, e, []);
  close := fun e => e
}.

#[export] Instance Rejecting_engine : Engine Rejecting := {
  execute := fun _ e => (false, e, [(error, ["1:1 - Expression expected."])]);
  close := fun e => e
}.

Definition conn : ConnectionInfo :=
  mkConnectionInfo 50001 50002 50003 50004 50005 "127.0.0.1" "secret" "tcp"
    "hmac-sha256" "tslab".

Definition server : ZmqServer := mkZmqServer (VStr "conn.json") conn.

(** A request of type [t] with payload [c], and its frames as a client
    holding [key] signs them. *)
Definition request (t : string) (c : value) : ZmqMessage :=
  mkZmqMessage "client-1" "<IDS|MSG>" ""
    (VObj [("msg_id", VStr "a1b2"); ("username", VStr "ada");
           ("session", VStr "s-7"); ("msg_type", VStr t);
           ("version", VStr "5.3")])
    (VObj []) (VObj []) c [].

Definition frames (key : string) (m : ZmqMessage) : list Buffer := wire key m.

(** The frames of a request to execute the cell [1 +]. *)
Definition execute_frames : list Buffer :=
  frames "secret" (request "execute_request" (VObj [("code", VStr "1 +")])).

(** The world a freshly constructed handler starts in. *)
Definition start {E} (e : E) : World (JupyterHandlerImpl E) :=
  mkWorld (JupyterHandlerImpl.new true e) 0 [].

End Sample.

(** ** A converter and a virtual machine to compute with

    An instance of the interfaces of the executor: the values are those of
    [JSON], [locals] is the list of its own properties, the virtual
    machine knows three programs and the converter five cells. *)

Module SampleCells.

Definition vm (code : string) (l : list (string * value))
  : Result value * list (string * value) :=
  if String.eqb code
       ("(function() { throw new Error('boom')" ++ Executor.newline ++ "})()")%string
  then (Throw (Error "boom"), l)
  else if String.prefix "(async function() { " code
  then (Ok (VObj [("then", VStr "[Function: then]")]), l)
  else (Ok VUndefined, assign (assign l "x" (VNum 2)) "tsLastExpr0" (VNum 2)).

#[export] Instance javascript : Executor.JavaScript := {
  Executor.V := value;
  Executor.Locals := list (string * value);
  Executor.empty := [];
  Executor.get := own;
  Executor.delete := fun l k => filter (fun p => negb (String.eqb (fst p) k)) l;
  Executor.getOwnPropertyNames := map fst;
  Executor.is_null := nullish;
  Executor.truthy := fun v =>
    match v with
    | VUndefined | VNull | VBool false => false
    | VNum n => negb (Z.eqb n 0)
    | VStr s => negb (String.eqb s "")
    | _ => true
    end;
  Executor.runInContext := vm
}.

Definition convert (prevDecl src : string) : Result Executor.ConvertResult :=
  if String.eqb src "1 +"
  then Ok (Executor.mkConvertResult
             [Executor.mkDiagnostic (Executor.mkPosition 0 3) "Expression expected."]
             None None false None)
  else if String.eqb src "interface A {}"
  then Ok (Executor.mkConvertResult [] None
             (Some (prevDecl ++ "interface A {}")%string) false None)
  else if String.eqb src "let x = 1 + 1; x"
  then Ok (Executor.mkConvertResult []
             (Some "exports.x = 1 + 1; exports.tsLastExpr0 = x")
             (Some "declare let x: number;") false (Some "tsLastExpr0"))
  else if String.eqb src "await sleep(10)"
  then Ok (Executor.mkConvertResult [] (Some "await sleep(10)") (Some prevDecl)
             true None)
  else if String.eqb src "throw new Error('boom')"
  then Ok (Executor.mkConvertResult [] (Some src) (Some prevDecl) false None)
  else Throw (Failure "the converter is closed").

#[export] Instance converter : Executor.Converter := {
  Executor.QuickInfo := string;
  Executor.CompletionInfo := string;
  Executor.IsCompleteResult := bool;
  Executor.convert := convert;
  Executor.conv_inspect := fun prevDecl src position => (prevDecl ++ src)%string;
  Executor.conv_complete := fun prevDecl src position => (prevDecl ++ src)%string;
  Executor.conv_isCompleteCode := fun src => negb (String.eqb src "1 +")
}.

(** The executor after the cell [let x = 1 + 1; x]. *)
Definition after_x : Executor.State :=
  snd (fst (Executor.execute "let x = 1 + 1; x" Executor.createExecutor)).

End SampleCells.

(** * The vocabulary of the statements *)

(** [v.k] where [v] is an object or a primitive. *)
Definition field (v : value) (k : string) : value :=
  match v with
  | VObj props => own props k
  | _ => VUndefined
  end.

(** The message [createReply] builds from [this] when the clock reads
    [date]. *)
Definition reply_to (this : ZmqMessage) (date : string) : ZmqMessage :=
  mkZmqMessage (identity this) (delim this) ""
    (VObj [("version", VStr "5.3"); ("date", VStr date);
           ("session", field (header this) "session");
           ("username", field (header this) "username");
           ("msg_type", field (header this) "msg_type");
           ("msg_id", field (header this) "msg_id")])
    (header this) (VObj []) (VObj []) [].

(** What [signAndSend] leaves in the trace. *)
Definition sending {R : Runtime} (key : string) (sock : Socket) (m : ZmqMessage)
  : list Event :=
  [Digest key (bodies m); Send sock (wire key m)].

Arguments sending : simpl never.

(** The status message [publishStatus] sends. *)
Definition status_message (state : string) (msg : ZmqMessage) (date : string)
  : ZmqMessage :=
  set_msg_type
    (set_content (reply_to msg date) (VObj [("execution_state", VStr state)]))
    "status".

(** The reply of type [t] with payload [c]. *)
Definition reply_message (t : string) (c : value) (msg : ZmqMessage) (date : string)
  : ZmqMessage :=
  set_content (set_msg_type (reply_to msg date) t) c.

(** Every byte is below 128. *)
Fixpoint ascii_text (s : string) : bool :=
  match s with
  | EmptyString => true
  | String c rest => Nat.ltb (nat_of_ascii c) 128 && ascii_text rest
  end.

(** The bytes are well-formed UTF-8: what [toString] reads from them is
    what the socket writes for it. *)
Definition text (b : Buffer) : Prop := toString b = b.

(** The four JSON body frames are present and each is valid JSON. *)
Definition json_frames_ok {R : Runtime} (raw : list Buffer) : bool :=
  forallb (fun i =>
             match nth_error raw i with
             | Some f =>
                 match JSON_parse (toString f) with Some _ => true | None => false end
             | None => false
             end) [3; 4; 5; 6]%nat.

(** A method seen through the payload it returns. *)
Definition returning {H A} (object : A -> value) (method : Method H A)
  : Method H value :=
  fun h =>
    match method h with
    | (Ok a, h', out) => (Ok (object a), h', out)
    | (Throw e, h', out) => (Throw e, h', out)
    end.

(** The [switch] of [handleShellMessage] as a table: the reply type and the
    handler method for a request of type [t] with payload [c]. *)
Definition dispatch {H} {JH : JupyterHandler H} (t c : value)
  : option (string * Method H value) :=
  if is_case t "kernel_info_request"
  then Some ("kernel_info_reply", returning KernelInfoReply_object handleKernel)
  else if is_case t "execute_request"
  then Some ("execute_reply", returning ExecuteReply_object (handleExecute c))
  else if is_case t "is_complete_request"
  then Some ("is_complete_reply", returning IsCompleteReply_object (handleIsComplete c))
  else if is_case t "shutdown_request"
  then Some ("shutdown_reply", returning ShutdownReply_object (handleShutdown c))
  else None.

(** The shape the four [handle...] methods of the server share. *)
Definition answer {R : Runtime} {H} (key : string) (t : string)
    (method : Method H value) (sock : Socket) (msg : ZmqMessage) : M H unit :=
  reply <- createReply msg ;;
  let reply := set_msg_type reply t in
  c <- call method ;;
  let reply := set_content reply c in
  signAndSend key sock reply.

(** The default case of the [switch]: the line the warning writes, and
    how the case ends, for a type the template literal converts to a
    string and for one it throws on. *)
Definition warning (converted : Result string) : list Line :=
  match converted with
  | Ok s => [(warn, ["unknown msg_type: " ++ s]%string)]
  | Throw _ => []
  end.

Definition unknown (converted : Result string) : Result unit :=
  match converted with
  | Ok _ => Ok tt
  | Throw e => Throw e
  end.

(** The frames of a batch with these routing frames and these bodies,
    signed under [key]. *)
Definition batch {R : Runtime} (key identity delim : string) (bodies : list string)
  : list string :=
  [identity; delim; tag key bodies] ++ bodies.

(** The frames published on the broadcast socket, in order. *)
Definition published (tr : list Event) : list (list string) :=
  flat_map (fun e => match e with Send iopub f => [f] | _ => [] end) tr.

(** The request types the [switch] has a case for. *)
Definition recognized (t : value) : bool :=
  existsb (is_case t)
    ["kernel_info_request"; "execute_request"; "is_complete_request";
     "shutdown_request"].

(** What a message derived from the request [msg] keeps of it. *)
Definition mirrors (msg rep : ZmqMessage) : Prop :=
  identity rep = identity msg
  /\ delim rep = delim msg
  /\ parent rep = header msg
  /\ field (header rep) "session" = field (header msg) "session"
  /\ field (header rep) "username" = field (header msg) "username".

(** The sockets the process sent on, in order. *)
Definition sockets (tr : list Event) : list Socket :=
  flat_map (fun e => match e with Send s _ => [s] | _ => [] end) tr.

(** The batches of [batches] handled one after the other, each call
    starting in the world the one before it left. *)
Definition serve {R : Runtime} {H} {JH : JupyterHandler H} (this : ZmqServer)
    (batches : list (Socket * list Buffer)) (w : World H) : World H :=
  fold_left (fun w b => snd (ZmqServer.handleShellMessage this (fst b) (snd b) w)) batches w.

(** Run [fromRaw] as far as the frames at hand determine it. *)
Ltac step_fromRaw :=
  unfold fromRaw, bind, frame, parse, ret, throw; simpl.

(** The reply a call sends, if it sends one, as the events it leaves on
    the socket of the request. *)
Definition replying {R : Runtime} (key : string) (sock : Socket)
    (reply : option ZmqMessage) : list Event :=
  match reply with
  | Some m => sending key sock m
  | None => []
  end.

Definition Socket_eqb (a b : Socket) : bool :=
  match a, b with
  | iopub, iopub | shell, shell | control, control | stdin, stdin | hb, hb => true
  | _, _ => false
  end.

(** The trace of a call had the request come in on [b] instead of [a]. *)
Definition redirect (a b : Socket) (e : Event) : Event :=
  match e with
  | Send s f => Send (if Socket_eqb s a then b else s) f
  | _ => e
  end.

(** The two status messages that bracket the request [msg]. *)
Definition bracket {R : Runtime} (key : string) (p : ZmqMessage * string * string)
  : list (list string) :=
  [wire key (status_message "busy" (fst (fst p)) (snd (fst p)));
   wire key (status_message "idle" (fst (fst p)) (snd p))].

(** The value of a hexadecimal digit. *)
Definition unhex_digit (c : ascii) : nat :=
  let n := nat_of_ascii c in
  if (n <? 58)%nat then (n - 48)%nat else (n - 87)%nat.

(** A string of sixteen characters, character by character. *)
Ltac sixteen b :=
  do 16 (destruct b as [|? b]; [discriminate|]);
  destruct b; [|discriminate].

(** * Properties *)

(** ** The embedding at work *)

Example basename_of_a_path : basename "/usr/local/bin/tslab" = "tslab".
Proof. reflexivity. Qed.

Example basename_skips_trailing_slashes : basename "/opt/kernels/jslab//" = "jslab".
Proof. reflexivity. Qed.

Example increment_counts : increment 41 = 42%Z.
Proof. reflexivity. Qed.

Example increment_stalls_at_2_53 : increment (2 ^ 53) = (2 ^ 53)%Z.
Proof. reflexivity. Qed.

Example member_of_null :
  member VNull "session" = Throw (TypeError "Cannot read property 'session' of null").
Proof. reflexivity. Qed.

Example member_of_a_string : member (VStr "header") "session" = Ok VUndefined.
Proof. reflexivity. Qed.

Example assign_keeps_the_place :
  assign [("date", VStr "d"); ("msg_type", VUndefined); ("msg_id", VStr "i")]
    "msg_type" (VStr "status")
  = [("date", VStr "d"); ("msg_type", VStr "status"); ("msg_id", VStr "i")].
Proof. reflexivity. Qed.

Example sample_json_round_trip :
  Sample.read
    (Sample.stringify (header (Sample.request "execute_request" (VObj []))))
  = Some (header (Sample.request "execute_request" (VObj []))).
Proof. vm_compute. reflexivity. Qed.

Example sample_json_later_key_wins :
  Sample.read
    (Sample.stringify
       (VObj [("a", VNum 1); ("b", VArr [VNull; VBool true]); ("a", VNum (-2))]))
  = Some (VObj [("a", VNum (-2)); ("b", VArr [VNull; VBool true])]).
Proof. vm_compute. reflexivity. Qed.

Example sample_json_rejects_an_open_brace : Sample.read "{" = None.
Proof. reflexivity. Qed.

Example sample_string_of_an_array :
  Sample.String_of_value (VArr [VNum 1; VNull; VStr "a"; VArr [VBool true]])
  = Ok "1,,a,true".
Proof. reflexivity. Qed.

Example sample_string_of_an_object :
  Sample.String_of_value (VObj [("valueOf", VNum 0)]) = Ok "[object Object]".
Proof. reflexivity. Qed.

Example sample_string_of_an_object_without_primitive_value :
  Sample.String_of_value (VObj [("toString", VNum 0)])
  = Throw (TypeError "Cannot convert object to primitive value").
Proof. reflexivity. Qed.

(** ** What the codec's computations do to the world *)

Lemma HeaderMessage_not_nullish (v : value) :
  HeaderMessage v -> nullish v = false.
Proof. intros [props [-> _]]. reflexivity. Qed.

Lemma member_field (v : value) (k : string) :
  nullish v = false -> member v k = Ok (field v k).
Proof. destruct v; simpl; intros E; try discriminate; reflexivity. Qed.

Lemma member_nullish (v : value) (k : string) :
  nullish v = true -> exists what, member v k = Throw (TypeError what).
Proof. destruct v; simpl; intros E; try discriminate; eexists; reflexivity. Qed.

Lemma fold_update (frames : list string) (hash : Hmac) :
  fold_left update frames hash = mkHmac (hkey hash) (chunks hash ++ frames).
Proof.
  revert hash. induction frames as [|f frames IH]; intros [k c]; simpl.
  - now rewrite app_nil_r.
  - rewrite IH. simpl. now rewrite <- app_assoc.
Qed.

(** *** Reading a frame as text *)

Example toString_reads_ascii : toString "<IDS|MSG>" = "<IDS|MSG>".
Proof. reflexivity. Qed.

Example toString_reads_utf8 :
  toString (bytes [206; 187; 226; 130; 172; 240; 159; 152; 128])
  = bytes [206; 187; 226; 130; 172; 240; 159; 152; 128].
Proof. reflexivity. Qed.

Example toString_replaces_a_stray_byte :
  toString (bytes [255; 65]) = bytes [239; 191; 189; 65].
Proof. reflexivity. Qed.

(** The bytes 61 F1 80 80 E1 80 C2 62 80 63 80 BF 64: one U+FFFD for each
    truncated sequence and for each stray continuation byte. *)
Example toString_replaces_maximal_subparts :
  toString (bytes [97; 241; 128; 128; 225; 128; 194; 98; 128; 99; 128; 191; 100])
  = bytes [97; 239; 191; 189; 239; 191; 189; 239; 191; 189; 98;
           239; 191; 189; 99; 239; 191; 189; 239; 191; 189; 100].
Proof. reflexivity. Qed.

Example toString_refuses_surrogates_and_overlong_forms :
  toString (bytes [237; 160; 128; 192; 128])
  = bytes [239; 191; 189; 239; 191; 189; 239; 191; 189;
           239; 191; 189; 239; 191; 189].
Proof. reflexivity. Qed.

Lemma toString_ascii (s : string) : ascii_text s = true -> toString s = s.
Proof.
  induction s as [|c s IH]; [reflexivity|]. simpl.
  intros A. apply andb_true_iff in A. destruct A as [A1 A2].
  now rewrite A1, (IH A2).
Qed.

(** Past ASCII, what [toString] reads starts past ASCII. *)
Lemma toString_high (c : ascii) (rest : string) :
  Nat.ltb (nat_of_ascii c) 128 = false ->
  exists c' r,
    toString (String c rest) = String c' r
    /\ Nat.ltb (nat_of_ascii c') 128 = false.
Proof.
  intros Hc. cbn [toString]. rewrite Hc.
  repeat match goal with
         | |- context [if ?b then _ else _] => destruct b
         | |- context [match ?r with EmptyString => _ | String _ _ => _ end] =>
             destruct r
         end;
    first [ exists c; eexists; split; [reflexivity | exact Hc]
          | eexists; eexists; split; [reflexivity | reflexivity] ].
Qed.

(** Text in ASCII is read from these very bytes only. *)
Lemma toString_eq_ascii (s t : string) :
  ascii_text t = true -> toString s = t -> s = t.
Proof.
  revert t. induction s as [|c s IH]; intros t A E.
  - exact E.
  - destruct (Nat.ltb (nat_of_ascii c) 128) eqn:Hc.
    + cbn [toString] in E. rewrite Hc in E. subst t.
      simpl in A. apply andb_true_iff in A. destruct A as [_ A].
      now rewrite (IH _ A eq_refl) at 1.
    + destruct (toString_high c s Hc) as [c' [r [E' Hc']]].
      rewrite E' in E. subst t. simpl in A. rewrite Hc' in A. discriminate.
Qed.

Lemma hex_digit_ascii (n : nat) : Nat.ltb (nat_of_ascii (hex_digit n)) 128 = true.
Proof. do 16 (destruct n as [|n]; [reflexivity|]). now destruct n. Qed.

Lemma toString_hex_ascii (b : Buffer) : ascii_text (toString_hex b) = true.
Proof.
  induction b as [|c b IH]; [reflexivity|].
  cbn [toString_hex ascii_text]. now rewrite !hex_digit_ascii, IH.
Qed.

Lemma toString_tag {R : Runtime} (key : string) (frames : list string) :
  toString (tag key frames) = tag key frames.
Proof. apply toString_ascii, toString_hex_ascii. Qed.

(** A tag is hexadecimal digits: the frame that reads as the tag is the
    tag. *)
Lemma tag_eqb {R : Runtime} (key : string) (frames : list string) (s : Buffer) :
  String.eqb (tag key frames) (toString s) = String.eqb (tag key frames) s.
Proof.
  assert (A : ascii_text (tag key frames) = true) by apply toString_hex_ascii.
  destruct (String.eqb (tag key frames) s) eqn:E.
  - apply String.eqb_eq in E. subst s. rewrite (toString_ascii _ A).
    apply String.eqb_refl.
  - apply String.eqb_neq. intros Q. apply String.eqb_neq in E. apply E.
    symmetry. apply (toString_eq_ascii _ _ A). now symmetry.
Qed.

Section CodecFacts.

Context {R : Runtime} {H : Type}.

Implicit Types (w : World H) (msg : ZmqMessage) (key : string).

Lemma verifyHmac_spec key sig (rest : list Buffer) w :
  verifyHmac key sig rest w =
  ((if String.eqb (tag key rest) sig then Ok tt
    else Throw (Error ("invalid hmac " ++ sig ++ "; want " ++ tag key rest))),
   mkWorld (handler w) (clock w) (trace w ++ [Digest key rest])).
Proof.
  unfold verifyHmac, digest_hex, bind, emit, ret, throw, tag.
  rewrite fold_update. simpl.
  destruct (String.eqb _ sig); reflexivity.
Qed.

Lemma signAndSend_spec key sock msg w :
  signAndSend key sock msg w =
  (Ok tt, mkWorld (handler w) (clock w) (trace w ++ sending key sock msg)).
Proof.
  unfold signAndSend, digest_hex, bind, emit, ret, sending, wire, tag.
  rewrite fold_update. simpl. now rewrite <- app_assoc.
Qed.

Lemma createReply_spec msg w :
  nullish (header msg) = false ->
  createReply msg w =
  (Ok (reply_to msg (toISOString (clock w))),
   mkWorld (handler w) (S (clock w)) (trace w)).
Proof.
  intros N. unfold createReply, bind, Date_now, lift, ret.
  rewrite !(member_field _ _ N). reflexivity.
Qed.

Lemma createReply_nullish msg w :
  nullish (header msg) = true ->
  exists what,
    createReply msg w =
    (Throw (TypeError what), mkWorld (handler w) (S (clock w)) (trace w)).
Proof.
  intros N. unfold createReply, bind, Date_now, lift.
  destruct (member_nullish _ "session" N) as [what E]. rewrite E.
  now exists what.
Qed.

End CodecFacts.

(** ** Decoding *)

Section Decoding.

Context {R : Runtime} {H : Type} {JH : JupyterHandler H}.

Variable this : ZmqServer.

Implicit Types (w : World H) (msg : ZmqMessage) (raw : list Buffer).

Let key := key (connInfo this).

(** A batch that does not decode is dropped where decoding stopped. *)
Lemma handleShellMessage_undecoded sock raw w e w' :
  fromRaw key raw w = (Throw e, w') ->
  ZmqServer.handleShellMessage this sock raw w = (Throw e, w').
Proof.
  intros E. unfold ZmqServer.handleShellMessage, bind. fold key. now rewrite E.
Qed.

(** The decoder on a batch whose seven leading frames are there and whose
    JSON bodies parse: one digest over the frames from the fourth on, and
    the message if the signature frame is that digest. *)
Lemma fromRaw_framed k i d s h p m c ext hv pv mv cv w :
  JSON_parse (toString h) = Some hv -> JSON_parse (toString p) = Some pv ->
  JSON_parse (toString m) = Some mv -> JSON_parse (toString c) = Some cv ->
  fromRaw (H := H) k (i :: d :: s :: h :: p :: m :: c :: ext) w =
  ((if String.eqb (tag k (h :: p :: m :: c :: ext)) s
    then Ok (mkZmqMessage (toString i) (toString d) s hv pv mv cv ext)
    else Throw (Error ("invalid hmac " ++ toString s ++ "; want "
                         ++ tag k (h :: p :: m :: c :: ext)))),
   mkWorld (handler w) (clock w)
     (trace w ++ [Digest k (h :: p :: m :: c :: ext)])).
Proof.
  intros Eh Ep Em Ec.
  unfold fromRaw, bind, frame, parse, ret, throw. cbn [nth_error skipn].
  rewrite Eh, Ep, Em, Ec.
  rewrite verifyHmac_spec, tag_eqb.
  destruct (String.eqb _ s) eqn:Es; [|reflexivity].
  apply String.eqb_eq in Es. subst s.
  now rewrite toString_tag.
Qed.

(** A decoded message carries the signature frame of its batch, and that
    frame is the tag of the frames that follow it. *)
Lemma fromRaw_sound k raw w msg w' :
  fromRaw (H := H) k raw w = (Ok msg, w') ->
  nth_error raw 2 = Some (hmac msg) /\ hmac msg = tag k (skipn 3 raw)
  /\ json_frames_ok raw = true
  /\ w' = mkWorld (handler w) (clock w) (trace w ++ [Digest k (skipn 3 raw)]).
Proof.
  destruct raw as [|i [|d [|s [|h [|p [|m [|c ext]]]]]]];
    try (step_fromRaw;
         repeat (match goal with
                 | |- context [JSON_parse ?f] => destruct (JSON_parse f)
                 end; simpl);
         discriminate).
  unfold json_frames_ok. simpl.
  destruct (JSON_parse (toString h)) as [hv|] eqn:Eh;
    [|step_fromRaw; rewrite Eh; discriminate].
  destruct (JSON_parse (toString p)) as [pv|] eqn:Ep;
    [|step_fromRaw; rewrite Eh, Ep; discriminate].
  destruct (JSON_parse (toString m)) as [mv|] eqn:Em;
    [|step_fromRaw; rewrite Eh, Ep, Em; discriminate].
  destruct (JSON_parse (toString c)) as [cv|] eqn:Ec;
    [|step_fromRaw;
      rewrite Eh, Ep, Em, Ec; discriminate].
  rewrite (fromRaw_framed k i d s h p m c ext hv pv mv cv w Eh Ep Em Ec).
  destruct (String.eqb _ s) eqn:Es; [|discriminate].
  intros E. inversion E; subst. simpl.
  apply String.eqb_eq in Es. now rewrite Es.
Qed.

(** The routing frames of a decoded message are those of the batch as
    [toString] reads them. *)
Lemma fromRaw_routing k raw w msg w' :
  fromRaw (H := H) k raw w = (Ok msg, w') ->
  option_map toString (nth_error raw 0) = Some (identity msg)
  /\ option_map toString (nth_error raw 1) = Some (delim msg).
Proof.
  intros D. destruct (fromRaw_sound k raw w msg w' D) as [_ [_ [J _]]].
  unfold json_frames_ok in J.
  destruct raw as [|i [|d [|s [|h [|p [|m [|c ext]]]]]]];
    simpl in J; try discriminate;
    try (destruct (JSON_parse (toString h)); try discriminate;
         destruct (JSON_parse (toString p)); try discriminate;
         destruct (JSON_parse (toString m)); discriminate).
  destruct (JSON_parse (toString h)) as [hv|] eqn:Eh; [|discriminate].
  destruct (JSON_parse (toString p)) as [pv|] eqn:Ep; [|discriminate].
  destruct (JSON_parse (toString m)) as [mv|] eqn:Em; [|discriminate].
  destruct (JSON_parse (toString c)) as [cv|] eqn:Ec; [|discriminate].
  rewrite (fromRaw_framed k i d s h p m c ext hv pv mv cv w Eh Ep Em Ec) in D.
  destruct (String.eqb _ s); [|discriminate].
  injection D as <- _. now split.
Qed.

(** X4.  What reaches the dispatcher is authentic: the signature frame of
    a batch that decoded is the tag, under the key, of the frames after
    it. *)
Lemma decoded_batch_is_authentic k raw w msg w' :
  fromRaw (H := H) k raw w = (Ok msg, w') ->
  nth_error raw 2 = Some (tag k (skipn 3 raw))
  /\ hmac msg = tag k (skipn 3 raw)
  /\ trace w' = trace w ++ [Digest k (skipn 3 raw)].
Proof.
  intros D. destruct (fromRaw_sound k raw w msg w' D) as [S2 [T [_ ->]]].
  rewrite S2, T. repeat split.
Qed.

(** Decoding touches neither the handler nor the clock, and adds to the
    trace at most the digest. *)
Lemma fromRaw_world k raw w :
  snd (fromRaw (H := H) k raw w) = w
  \/ snd (fromRaw (H := H) k raw w)
     = mkWorld (handler w) (clock w) (trace w ++ [Digest k (skipn 3 raw)]).
Proof.
  destruct raw as [|i [|d [|s [|h [|p [|m [|c ext]]]]]]];
    try (left; step_fromRaw;
         repeat (match goal with
                 | |- context [JSON_parse ?f] => destruct (JSON_parse f)
                 end; simpl);
         reflexivity).
  destruct (JSON_parse (toString h)) as [hv|] eqn:Eh;
    [|left; step_fromRaw; now rewrite Eh].
  destruct (JSON_parse (toString p)) as [pv|] eqn:Ep;
    [|left; step_fromRaw; now rewrite Eh, Ep].
  destruct (JSON_parse (toString m)) as [mv|] eqn:Em;
    [|left; step_fromRaw; now rewrite Eh, Ep, Em].
  destruct (JSON_parse (toString c)) as [cv|] eqn:Ec;
    [|left; step_fromRaw; now rewrite Eh, Ep, Em, Ec].
  right. now rewrite (fromRaw_framed k i d s h p m c ext hv pv mv cv w Eh Ep Em Ec).
Qed.

(** X6.  Whatever makes decoding fail, the batch is dropped: nothing is
    sent, nothing is written to the console, the handler is not called. *)
Lemma undecoded_is_dropped sock raw w e w' :
  fromRaw key raw w = (Throw e, w') ->
  ZmqServer.handleShellMessage this sock raw w = (Throw e, w')
  /\ handler w' = handler w /\ clock w' = clock w
  /\ (trace w' = trace w \/ trace w' = trace w ++ [Digest key (skipn 3 raw)]).
Proof.
  intros E. split; [now apply handleShellMessage_undecoded|].
  destruct (fromRaw_world key raw w) as [W|W]; rewrite E in W; simpl in W;
    subst w'; repeat split; auto.
Qed.

(** C1.  Whatever the batch, decoding takes the HMAC-SHA256 tag, under the
    shared secret, of the frames that follow the signature frame (header,
    parent header, metadata, content, extra buffers, in that order); when
    the signature frame differs from that tag, [fromRaw] throws, and so
    does [handleShellMessage], in a world where nothing was sent on any
    socket and the handler was not called.  Where the four JSON bodies
    parse, so that decoding reaches the check, the trace holds the digest
    over exactly these frames and the error is
    [invalid hmac <received>; want <expected>], the received signature as
    [toString] read it. *)
Theorem bad_signature_is_dropped sock raw s w :
  nth_error raw 2 = Some s ->
  s <> tag key (skipn 3 raw) ->
  exists e,
    let w' := if json_frames_ok raw
              then mkWorld (handler w) (clock w)
                     (trace w ++ [Digest key (skipn 3 raw)])
              else w in
    fromRaw key raw w = (Throw e, w')
    /\ ZmqServer.handleShellMessage this sock raw w = (Throw e, w')
    /\ (json_frames_ok raw = true ->
        e = Error ("invalid hmac " ++ toString s ++ "; want "
                     ++ tag key (skipn 3 raw))).
Proof.
  intros Hs Hne.
  assert (D : exists e,
             fromRaw key raw w =
             (Throw e,
              if json_frames_ok raw
              then mkWorld (handler w) (clock w)
                     (trace w ++ [Digest key (skipn 3 raw)])
              else w)
             /\ (json_frames_ok raw = true ->
                 e = Error ("invalid hmac " ++ toString s ++ "; want "
                              ++ tag key (skipn 3 raw)))).
  { destruct raw as [|i [|d [|s' raw3]]]; try discriminate.
    simpl in Hs. injection Hs as ->. simpl in Hne.
    unfold json_frames_ok. simpl.
    destruct raw3 as [|h raw4];
      [eexists; split; [reflexivity | discriminate]|].
    simpl. destruct (JSON_parse (toString h)) as [hv|] eqn:Eh; simpl;
      [|eexists; split;
        [step_fromRaw; rewrite Eh; reflexivity
        | discriminate]].
    destruct raw4 as [|p raw5];
      [eexists; split;
       [step_fromRaw; rewrite Eh; reflexivity
       | discriminate]|].
    simpl. destruct (JSON_parse (toString p)) as [pv|] eqn:Ep; simpl;
      [|eexists; split;
        [step_fromRaw;
         rewrite Eh, Ep; reflexivity
        | discriminate]].
    destruct raw5 as [|m raw6];
      [eexists; split;
       [step_fromRaw;
        rewrite Eh, Ep; reflexivity
       | discriminate]|].
    simpl. destruct (JSON_parse (toString m)) as [mv|] eqn:Em; simpl;
      [|eexists; split;
        [step_fromRaw;
         rewrite Eh, Ep, Em; reflexivity
        | discriminate]].
    destruct raw6 as [|c ext];
      [eexists; split;
       [step_fromRaw;
        rewrite Eh, Ep, Em; reflexivity
       | discriminate]|].
    simpl. destruct (JSON_parse (toString c)) as [cv|] eqn:Ec; simpl;
      [|eexists; split;
        [step_fromRaw;
         rewrite Eh, Ep, Em, Ec; reflexivity
        | discriminate]].
    rewrite (fromRaw_framed key i d s h p m c ext hv pv mv cv w Eh Ep Em Ec).
    destruct (String.eqb _ s) eqn:Es.
    - apply String.eqb_eq in Es. now elim Hne.
    - eexists; split; [reflexivity | reflexivity]. }
  destruct D as [e [D1 D2]]. exists e. cbv zeta.
  split; [exact D1|]. split; [|exact D2].
  now apply handleShellMessage_undecoded.
Qed.

(** C4.  The JSON bodies are parsed before the signature is checked: when
    one of the four body frames is not valid JSON, [fromRaw] throws the
    [SyntaxError] of the first such frame and [handleShellMessage] with
    it, in the world they started from: no digest was taken, nothing was
    sent (no reply, no busy or idle status), the handler was not called. *)
Theorem malformed_frame_is_dropped sock raw j f w :
  (j < 4)%nat ->
  nth_error raw (3 + j) = Some f ->
  JSON_parse (toString f) = None ->
  exists f' j',
    (j' <= j)%nat /\ nth_error raw (3 + j') = Some f'
    /\ JSON_parse (toString f') = None
    /\ fromRaw key raw w = (Throw (SyntaxError (toString f')), w)
    /\ ZmqServer.handleShellMessage this sock raw w
       = (Throw (SyntaxError (toString f')), w).
Proof.
  intros Hj Hf Hp.
  assert (D : exists f' j',
             (j' <= j)%nat /\ nth_error raw (3 + j') = Some f'
             /\ JSON_parse (toString f') = None
             /\ fromRaw key raw w = (Throw (SyntaxError (toString f')), w)).
  { destruct raw as [|i [|d [|s raw3]]];
      try (destruct j as [|[|[|[|]]]]; discriminate).
    destruct raw3 as [|h raw4]; [destruct j as [|[|[|[|]]]]; discriminate|].
    destruct (JSON_parse (toString h)) as [hv|] eqn:Eh;
      [|exists h, 0%nat; repeat split; try lia; try assumption;
        step_fromRaw; now rewrite Eh].
    destruct j as [|j]; [simpl in Hf; injection Hf as ->; congruence|].
    destruct raw4 as [|p raw5]; [destruct j as [|[|[|]]]; discriminate|].
    destruct (JSON_parse (toString p)) as [pv|] eqn:Ep;
      [|exists p, 1%nat; repeat split; try lia; try assumption;
        step_fromRaw; now rewrite Eh, Ep].
    destruct j as [|j]; [simpl in Hf; injection Hf as ->; congruence|].
    destruct raw5 as [|m raw6]; [destruct j as [|[|]]; discriminate|].
    destruct (JSON_parse (toString m)) as [mv|] eqn:Em;
      [|exists m, 2%nat; repeat split; try lia; try assumption;
        step_fromRaw;
        now rewrite Eh, Ep, Em].
    destruct j as [|j]; [simpl in Hf; injection Hf as ->; congruence|].
    destruct raw6 as [|c ext]; [destruct j as [|]; discriminate|].
    destruct j as [|j]; [|lia].
    simpl in Hf; injection Hf as ->.
    exists f, 3%nat; repeat split; try lia; try assumption.
    step_fromRaw.
    now rewrite Eh, Ep, Em, Hp. }
  destruct D as [f' [j' [D1 [D2 [D3 D4]]]]]. exists f', j'.
  repeat split; try assumption.
  now apply handleShellMessage_undecoded.
Qed.

End Decoding.

(** ** Dispatching *)

Section Dispatch.

Context {R : Runtime} {H : Type} {JH : JupyterHandler H}.

Variable this : ZmqServer.

Implicit Types (w : World H) (msg : ZmqMessage) (raw : list Buffer).

Let key := key (connInfo this).

Lemma publishStatus_spec state msg w :
  nullish (header msg) = false ->
  ZmqServer.publishStatus this state msg w =
  (Ok tt,
   mkWorld (handler w) (S (clock w))
     (trace w ++ sending key iopub
                   (status_message state msg (toISOString (clock w))))).
Proof.
  intros N. unfold ZmqServer.publishStatus, bind. rewrite (createReply_spec _ _ N).
  rewrite signAndSend_spec. reflexivity.
Qed.

Lemma publishStatus_nullish state msg w :
  nullish (header msg) = true ->
  exists what,
    ZmqServer.publishStatus this state msg w =
    (Throw (TypeError what), mkWorld (handler w) (S (clock w)) (trace w)).
Proof.
  intros N. destruct (createReply_nullish msg w N) as [what E].
  exists what. unfold ZmqServer.publishStatus, bind. now rewrite E.
Qed.

Lemma answer_spec t method sock msg w :
  nullish (header msg) = false ->
  answer key t method sock msg w =
  match method (handler w) with
  | (Ok c, h, out) =>
      (Ok tt,
       mkWorld h (S (clock w))
         ((trace w ++ map console out)
            ++ sending key sock (reply_message t c msg (toISOString (clock w)))))
  | (Throw e, h, out) =>
      (Throw e, mkWorld h (S (clock w)) (trace w ++ map console out))
  end.
Proof.
  intros N. unfold answer, bind. rewrite (createReply_spec _ _ N).
  unfold call. simpl.
  destruct (method (handler w)) as [[[c|e] h] out]; [|reflexivity].
  rewrite signAndSend_spec. reflexivity.
Qed.

Lemma answer_returning {A} t (object : A -> value) (method : Method H A)
    sock msg w :
  answer key t (returning object method) sock msg w =
  (reply <- createReply msg ;;
   let reply := set_msg_type reply t in
   c <- call method ;;
   let reply := set_content reply (object c) in
   signAndSend key sock reply) w.
Proof.
  unfold answer, bind, call, returning.
  destruct (createReply msg w) as [[rep|e] w1]; [|reflexivity]. simpl.
  destruct (method (handler w1)) as [[[c|e] h] out]; reflexivity.
Qed.

(** [route] is [answer] on the entry of the table, and a warning
    without one, if the type can be converted to a string. *)
Lemma route_dispatch sock msg w :
  nullish (header msg) = false ->
  ZmqServer.route this sock msg w =
  match dispatch (field (header msg) "msg_type") (content msg) with
  | Some (t, method) => answer key t method sock msg w
  | None =>
      (unknown (String_of (field (header msg) "msg_type")),
       mkWorld (handler w) (clock w)
         (trace w ++ map console (warning (String_of (field (header msg) "msg_type")))))
  end.
Proof.
  intros N. unfold ZmqServer.route, bind, lift. rewrite (member_field _ _ N).
  unfold dispatch.
  destruct (is_case _ "kernel_info_request");
    [rewrite answer_returning; reflexivity|].
  destruct (is_case _ "execute_request");
    [rewrite answer_returning; reflexivity|].
  destruct (is_case _ "is_complete_request");
    [rewrite answer_returning; reflexivity|].
  destruct (is_case _ "shutdown_request");
    [rewrite answer_returning; reflexivity|].
  destruct (String_of _) as [s|e]; [reflexivity|].
  simpl. rewrite app_nil_r. now destruct w.
Qed.

(** One request, decoded: busy, the route, idle. *)
Lemma handleShellMessage_decoded sock raw w msg w1 :
  fromRaw key raw w = (Ok msg, w1) ->
  nullish (header msg) = false ->
  ZmqServer.handleShellMessage this sock raw w =
  match
    ZmqServer.route this sock msg
      (mkWorld (handler w1) (S (clock w1))
         (trace w1 ++ sending key iopub
                        (status_message "busy" msg (toISOString (clock w1)))))
  with
  | (r, wr) =>
      (r, mkWorld (handler wr) (S (clock wr))
            (trace wr ++ sending key iopub
                           (status_message "idle" msg (toISOString (clock wr)))))
  end.
Proof.
  intros D N. unfold ZmqServer.handleShellMessage, bind. fold key. rewrite D.
  rewrite (publishStatus_spec _ _ _ N). unfold try_finally.
  destruct (ZmqServer.route this sock msg _) as [r wr].
  rewrite (publishStatus_spec _ _ _ N). reflexivity.
Qed.

End Dispatch.

Lemma published_app (a b : list Event) :
  published (a ++ b) = published a ++ published b.
Proof. unfold published. now rewrite flat_map_app. Qed.

Lemma published_console (out : list Line) : published (map console out) = [].
Proof. induction out as [|l out IH]; [reflexivity | exact IH]. Qed.

Lemma published_sending {R : Runtime} (key : string) (m : ZmqMessage) :
  published (sending key iopub m) = [wire key m].
Proof. reflexivity. Qed.

Lemma published_none (tr : list Event) :
  (forall f, ~ In (Send iopub f) tr) -> published tr = [].
Proof.
  induction tr as [|e tr IH]; intros N; [reflexivity|].
  assert (T : published tr = []) by (apply IH; intros f I; apply (N f); now right).
  destruct e as [k c|s f|st a]; try exact T.
  destruct s; try exact T. elim (N f). now left.
Qed.

Section Bracketing.

Context {R : Runtime} {H : Type} {JH : JupyterHandler H}.

Variable this : ZmqServer.

Implicit Types (w : World H) (msg : ZmqMessage) (raw : list Buffer).

Let key := key (connInfo this).

(** What [route] adds to the trace: console lines of the handler, then
    at most one reply, sent on the socket of the request. *)
Lemma route_trace sock msg w :
  nullish (header msg) = false ->
  exists r h n mid,
    ZmqServer.route this sock msg w = (r, mkWorld h n (trace w ++ mid))
    /\ (forall s f, In (Send s f) mid ->
        s = sock /\ exists t c,
          f = wire key (reply_message t c msg (toISOString (clock w)))).
Proof.
  intros N. rewrite (route_dispatch _ _ _ _ N).
  destruct (dispatch _ _) as [[t method]|].
  - rewrite (answer_spec _ _ _ _ _ _ N). fold key.
    destruct (method (handler w)) as [[[c|e] h] out].
    + exists (Ok tt), h, (S (clock w)),
        (map console out
           ++ sending key sock (reply_message t c msg (toISOString (clock w)))).
      split; [now rewrite app_assoc|].
      intros s f I. apply in_app_or in I. destruct I as [I|I].
      * apply in_map_iff in I. destruct I as [l [E _]]. discriminate.
      * destruct I as [I|[I|[]]]; [discriminate|].
        injection I as <- <-. split; [reflexivity|]. now exists t, c.
    + exists (Throw e), h, (S (clock w)), (map console out).
      split; [reflexivity|].
      intros s f I. apply in_map_iff in I. destruct I as [l [E _]]. discriminate.
  - eexists _, (handler w), (clock w), _. split; [reflexivity|].
    intros s f I. apply in_map_iff in I. destruct I as [l [E _]]. discriminate.
Qed.

(** C2, as the code has it.  A request that decoded, with a header that
    is not [null], is bracketed on the broadcast socket, on whichever of
    the shell and the control socket it came in: one status message with
    [execution_state: "busy"] is published, then the request is routed,
    then one with [execution_state: "idle"] is published, whether the
    route returned or threw ([r] is either); these two are all that the
    call publishes.  Both have the header of the request as parent and
    [msg_type: "status"]; the frames of each are the routing identity and
    the delimiter of the request as decoded, the tag, and the JSON texts
    of the status header, of the header of the request, of [{}] and of
    the execution state. *)
Theorem status_brackets_request sock raw w msg w1 :
  fromRaw key raw w = (Ok msg, w1) ->
  nullish (header msg) = false ->
  sock <> iopub ->
  exists r wr w' mid,
    let busy := status_message "busy" msg (toISOString (clock w1)) in
    let idle := status_message "idle" msg (toISOString (clock wr)) in
    let wb := mkWorld (handler w1) (S (clock w1))
                (trace w1 ++ sending key iopub busy) in
    ZmqServer.publishStatus this "busy" msg w1 = (Ok tt, wb)
    /\ ZmqServer.route this sock msg wb = (r, wr)
    /\ ZmqServer.handleShellMessage this sock raw w = (r, w')
    /\ trace w' = trace w1 ++ sending key iopub busy ++ mid ++ sending key iopub idle
    /\ published (trace w') = published (trace w1) ++ [wire key busy; wire key idle]
    /\ (content busy = VObj [("execution_state", VStr "busy")]
        /\ parent busy = header msg
        /\ field (header busy) "msg_type" = VStr "status")
    /\ (content idle = VObj [("execution_state", VStr "idle")]
        /\ parent idle = header msg
        /\ field (header idle) "msg_type" = VStr "status")
    /\ wire key busy
       = batch key (identity msg) (delim msg)
           [JSON_stringify (header busy); JSON_stringify (header msg);
            JSON_stringify (VObj []);
            JSON_stringify (VObj [("execution_state", VStr "busy")])]
    /\ wire key idle
       = batch key (identity msg) (delim msg)
           [JSON_stringify (header idle); JSON_stringify (header msg);
            JSON_stringify (VObj []);
            JSON_stringify (VObj [("execution_state", VStr "idle")])].
Proof.
  intros D N S.
  pose (busy := status_message "busy" msg (toISOString (clock w1))).
  pose (wb := mkWorld (handler w1) (Datatypes.S (clock w1))
                (trace w1 ++ sending key iopub busy)).
  destruct (route_trace sock msg wb N) as [r [h [n [mid [Er Q]]]]].
  exists r, (mkWorld h n (trace wb ++ mid)),
    (mkWorld h (Datatypes.S n)
       ((trace wb ++ mid)
          ++ sending key iopub (status_message "idle" msg (toISOString n)))),
    mid.
  cbv zeta. fold busy. fold wb.
  assert (P : published mid = []).
  { apply published_none. intros f I. destruct (Q _ _ I) as [E _]. now elim S. }
  split; [apply (publishStatus_spec this _ _ _ N)|].
  split; [exact Er|].
  split; [rewrite (handleShellMessage_decoded this sock raw w msg w1 D N);
          fold key busy wb; now rewrite Er|].
  split; [unfold wb; cbn [trace]; now rewrite <- !app_assoc|].
  split; [|repeat split].
  unfold wb. cbn [trace clock].
  rewrite !published_app, P, !published_sending, app_nil_r.
  now rewrite <- app_assoc.
Qed.

(** C8, as the code has it.  A decoded request (its header not [null])
    whose [msg_type] is none of the four the [switch] names is answered on
    no socket and does not reach the handler: the call publishes busy and
    idle, and nothing else is sent.  Between the two it writes the warning
    to the console and returns, when the template literal converts the
    [msg_type] to a string; when the conversion throws, nothing is written
    and the call throws what the conversion threw, after idle. *)
Theorem unrecognized_request_gets_no_reply sock raw w msg w1 :
  fromRaw key raw w = (Ok msg, w1) ->
  nullish (header msg) = false ->
  recognized (field (header msg) "msg_type") = false ->
  exists r w' logged,
    let t := field (header msg) "msg_type" in
    let busy := status_message "busy" msg (toISOString (clock w1)) in
    let idle := status_message "idle" msg (toISOString (S (clock w1))) in
    let sent := sending key iopub busy ++ logged ++ sending key iopub idle in
    ZmqServer.handleShellMessage this sock raw w = (r, w')
    /\ trace w' = trace w1 ++ sent
    /\ handler w' = handler w
    /\ (forall s f, In (Send s f) sent -> s = iopub)
    /\ published sent = [wire key busy; wire key idle]
    /\ match String_of t with
       | Ok s =>
           r = Ok tt /\ logged = [Console warn ["unknown msg_type: " ++ s]%string]
       | Throw e => r = Throw e /\ logged = []
       end
    /\ wire key busy
       = batch key (identity msg) (delim msg)
           [JSON_stringify (header busy); JSON_stringify (header msg);
            JSON_stringify (VObj []);
            JSON_stringify (VObj [("execution_state", VStr "busy")])]
    /\ wire key idle
       = batch key (identity msg) (delim msg)
           [JSON_stringify (header idle); JSON_stringify (header msg);
            JSON_stringify (VObj []);
            JSON_stringify (VObj [("execution_state", VStr "idle")])].
Proof.
  intros D N U.
  assert (T : dispatch (field (header msg) "msg_type") (content msg) = None).
  { unfold recognized in U. simpl in U. unfold dispatch.
    repeat (apply orb_false_elim in U; destruct U as [?U1 U]).
    now rewrite U1, U0, U2, U3. }
  exists (unknown (String_of (field (header msg) "msg_type"))).
  eexists.
  exists (map console (warning (String_of (field (header msg) "msg_type")))).
  cbv zeta.
  rewrite (handleShellMessage_decoded this sock raw w msg w1 D N).
  rewrite (route_dispatch _ _ _ _ N), T. cbn [handler clock trace].
  split; [reflexivity|]. split; [cbn [trace]; now rewrite <- !app_assoc|].
  split; [now destruct (fromRaw_sound _ _ _ _ _ D) as [_ [_ [_ ->]]]|].
  split.
  { intros s f I. rewrite !in_app_iff in I.
    destruct I as [[I|[I|[]]]|[I|[I|[I|[]]]]];
      try discriminate; try (now injection I as <- _).
    apply in_map_iff in I. destruct I as [l [E _]]. discriminate. }
  split.
  { rewrite !published_app, published_console, !published_sending. reflexivity. }
  split; [|split; reflexivity].
  destruct (String_of _) as [s|e]; now split.
Qed.

End Bracketing.

(** ** Requests that are dropped after decoding *)

Section Dropped.

Context {R : Runtime} {H : Type} {JH : JupyterHandler H}.

Variable this : ZmqServer.

Implicit Types (w : World H) (msg : ZmqMessage) (raw : list Buffer).

Let key := key (connInfo this).

(** X3.  A batch whose header frame is the JSON text [null] decodes, if it
    is signed; [createReply] then throws on reading [this.header.session],
    inside the first [publishStatus], which is outside the [try]: nothing
    is published and nothing is sent. *)
Lemma null_header_is_dropped sock raw w msg w1 :
  fromRaw key raw w = (Ok msg, w1) ->
  nullish (header msg) = true ->
  exists what,
    ZmqServer.handleShellMessage this sock raw w =
    (Throw (TypeError what), mkWorld (handler w1) (S (clock w1)) (trace w1)).
Proof.
  intros D N. destruct (publishStatus_nullish this "busy" msg w1 N) as [what E].
  exists what. unfold ZmqServer.handleShellMessage, bind. fold key. now rewrite D, E.
Qed.

(** X2.  When the handler method throws, the call throws what it threw,
    after idle was published; no reply is sent. *)
Lemma failed_handler_gets_idle_and_no_reply sock raw w msg w1 t method e h out :
  fromRaw key raw w = (Ok msg, w1) ->
  nullish (header msg) = false ->
  dispatch (field (header msg) "msg_type") (content msg) = Some (t, method) ->
  method (handler w1) = (Throw e, h, out) ->
  ZmqServer.handleShellMessage this sock raw w =
  (Throw e,
   mkWorld h (3 + clock w1)
     (trace w1
        ++ sending key iopub (status_message "busy" msg (toISOString (clock w1)))
        ++ map console out
        ++ sending key iopub
             (status_message "idle" msg (toISOString (2 + clock w1))))).
Proof.
  intros D N T Em.
  rewrite (handleShellMessage_decoded this sock raw w msg w1 D N).
  rewrite (route_dispatch _ _ _ _ N), T, (answer_spec _ _ _ _ _ _ N).
  cbn [handler clock trace]. rewrite Em. cbn [handler clock trace].
  fold key. now rewrite <- !app_assoc.
Qed.

End Dropped.

(** ** Replies *)

Lemma reply_to_mirrors msg date : mirrors msg (reply_to msg date).
Proof. repeat split. Qed.

Lemma status_message_mirrors state msg date :
  mirrors msg (status_message state msg date).
Proof. repeat split. Qed.

Lemma reply_message_mirrors t c msg date :
  mirrors msg (reply_message t c msg date).
Proof. repeat split. Qed.

Section Replies.

Context {R : Runtime} {H : Type} {JH : JupyterHandler H}.

Variable this : ZmqServer.

Implicit Types (w : World H) (msg : ZmqMessage) (raw : list Buffer).

Let key := key (connInfo this).

(** X22.  What a reply keeps of the request, for a request that decoded
    with a header that is not [null].  [createReply] returns a message
    with the routing identity and the delimiter of the decoded request,
    which are the first two frames of the batch as [toString] read them,
    and so those very frames when their bytes are text; it has the header
    of the request as parent and the session and the username of the
    request in its own header.  Every batch the call sends is such a
    message, framed as identity, delimiter, tag, and the JSON texts of its
    header, of the header of the request, of its metadata and of its
    content; it goes out on the socket the request came in on, unless it
    is a status message (those go to the broadcast socket).  When the
    request is of a recognized type and the handler returns, exactly one
    reply is sent, between the two status messages. *)
Theorem reply_mirrors_request sock raw w msg w1 :
  fromRaw key raw w = (Ok msg, w1) ->
  nullish (header msg) = false ->
  (option_map toString (nth_error raw 0) = Some (identity msg)
   /\ option_map toString (nth_error raw 1) = Some (delim msg)
   /\ (forall i d,
          nth_error raw 0 = Some i -> nth_error raw 1 = Some d ->
          text i -> text d -> identity msg = i /\ delim msg = d))
  /\ (forall w0 : World H,
      exists rep,
        createReply msg w0
        = (Ok rep, mkWorld (handler w0) (S (clock w0)) (trace w0))
        /\ mirrors msg rep)
  /\ exists r w' sent,
      ZmqServer.handleShellMessage this sock raw w = (r, w')
      /\ trace w' = trace w1 ++ sent
      /\ (forall s f,
             In (Send s f) sent ->
             exists rep,
               f = wire key rep /\ mirrors msg rep
               /\ f = batch key (identity msg) (delim msg)
                        [JSON_stringify (header rep); JSON_stringify (header msg);
                         JSON_stringify (metadata rep); JSON_stringify (content rep)]
               /\ (s = sock
                   \/ s = iopub /\ field (header rep) "msg_type" = VStr "status"))
      /\ (forall t method c h out,
             dispatch (field (header msg) "msg_type") (content msg)
             = Some (t, method) ->
             method (handler w1) = (Ok c, h, out) ->
             r = Ok tt /\ handler w' = h
             /\ sent =
                sending key iopub
                  (status_message "busy" msg (toISOString (clock w1)))
                ++ map console out
                ++ sending key sock
                     (reply_message t c msg (toISOString (S (clock w1))))
                ++ sending key iopub
                     (status_message "idle" msg (toISOString (S (S (clock w1)))))).
Proof.
  intros D N. split.
  { destruct (fromRaw_routing _ _ _ _ _ D) as [Ri Rd].
    split; [exact Ri|]. split; [exact Rd|].
    intros i d Ei Ed Ti Td. rewrite Ei in Ri. rewrite Ed in Rd.
    simpl in Ri, Rd. injection Ri as <-. injection Rd as <-.
    split; [exact Ti | exact Td]. }
  split.
  { intros w0. exists (reply_to msg (toISOString (clock w0))).
    split; [apply (createReply_spec _ _ N) | apply reply_to_mirrors]. }
  rewrite (handleShellMessage_decoded this sock raw w msg w1 D N). fold key.
  set (busy := status_message "busy" msg (toISOString (clock w1))).
  set (wb := mkWorld (handler w1) (S (clock w1)) (trace w1 ++ sending key iopub busy)).
  destruct (route_trace this sock msg wb N) as [r [h [n [mid [Er Q]]]]].
  pose proof Er as Er'. rewrite (route_dispatch _ _ _ _ N) in Er'.
  rewrite Er.
  exists r, (mkWorld h (S n)
               ((trace wb ++ mid)
                  ++ sending key iopub (status_message "idle" msg (toISOString n)))),
    (sending key iopub busy ++ mid
       ++ sending key iopub (status_message "idle" msg (toISOString n))).
  split; [reflexivity|].
  split; [unfold wb; cbn [trace]; now rewrite <- !app_assoc|].
  split.
  - intros s f I. apply in_app_or in I. destruct I as [I|I].
    { destruct I as [I|[I|[]]]; [discriminate|]. injection I as <- <-.
      exists busy. split; [reflexivity|].
      split; [apply status_message_mirrors|]. split; [reflexivity|].
      right. now split. }
    apply in_app_or in I. destruct I as [I|I].
    { destruct (Q _ _ I) as [-> [t [c ->]]]. eexists. split; [reflexivity|].
      split; [apply reply_message_mirrors|]. split; [reflexivity | now left]. }
    destruct I as [I|[I|[]]]; [discriminate|]. injection I as <- <-.
    eexists. split; [reflexivity|].
    split; [apply status_message_mirrors|]. split; [reflexivity|].
    right. now split.
  - intros t method c h' out T Em. rewrite T in Er'.
    rewrite (answer_spec _ _ _ _ _ _ N) in Er'. fold key in Er'.
    unfold wb in Er'. cbn [handler clock trace] in Er'. rewrite Em in Er'.
    injection Er' as <- <- <- Et.
    rewrite <- app_assoc in Et. apply app_inv_head in Et. subst mid.
    split; [reflexivity|]. split; [reflexivity|].
    now rewrite <- !app_assoc.
Qed.

(** C3, as the code has it.  For a request whose header is not [null],
    the header of the message [createReply] returns carries the [msg_id]
    of the request, copied; the date is the one the clock reads when the
    reply is built. *)
Theorem createReply_copies_msg_id msg (w : World H) :
  nullish (header msg) = false ->
  exists rep,
    createReply msg w = (Ok rep, mkWorld (handler w) (S (clock w)) (trace w))
    /\ field (header rep) "msg_id" = field (header msg) "msg_id"
    /\ member (header rep) "msg_id" = member (header msg) "msg_id"
    /\ field (header rep) "date" = VStr (toISOString (clock w)).
Proof.
  intros N. exists (reply_to msg (toISOString (clock w))).
  split; [apply (createReply_spec _ _ N)|].
  split; [reflexivity|]. split; [|reflexivity].
  now rewrite (member_field _ _ N).
Qed.

End Replies.

(** ** The handler *)

Section HandlerFacts.

Context {R : Runtime} {E : Type} {Eng : Engine E}.

Variable this : ZmqServer.

Implicit Types (w : World (JupyterHandlerImpl E)) (msg : ZmqMessage)
  (raw : list Buffer) (j : JupyterHandlerImpl E).

Let key := key (connInfo this).

(** [handleKernel] answers with protocol version 5.3 and the file
    extension of the variant the handler was constructed for. *)
Lemma handleKernel_follows_flag j :
  exists r,
    JupyterHandlerImpl.handleKernel j = (Ok r, j, [])
    /\ protocol_version r = "5.3"
    /\ file_extension (language_info r) = (if ts j then ".ts" else ".js").
Proof. eexists. split; [reflexivity|]. now split. Qed.

(** [main] constructs the handler with [ts] set, whatever the command. *)
Lemma main_handler_ts (argv : list string) (e : E) j path :
  main argv e = Ok (j, path) -> ts j = true.
Proof.
  unfold main. destruct (nth_error argv 1); [|discriminate].
  cbv zeta. intros I. now injection I as <- _.
Qed.

(** C9, at the input where the code departs from it.  Started as [jslab]
    the process is not invoked as the TypeScript kernel, and yet the
    handler [main] constructs answers a [kernel_info_request] with
    [protocol_version: "5.3"] and [file_extension: ".ts"]. *)
Theorem main_jslab_reports_ts (e : E) :
  let argv := ["node"; "/usr/local/bin/jslab"; "connection.json"] in
  invoked_as_ts argv = false
  /\ exists j path r,
      main argv e = Ok (j, path)
      /\ JupyterHandlerImpl.handleKernel j = (Ok r, j, [])
      /\ protocol_version r = "5.3"
      /\ file_extension (language_info r) = ".ts".
Proof.
  cbv zeta. split; [reflexivity|].
  eexists. eexists. eexists. split; [reflexivity|].
  split; [reflexivity|]. now split.
Qed.

(** C10.  [handleShutdown] returns [{restart: false}] for every request
    payload, and that is the content of the [shutdown_reply] the server
    sends for a request whose header is not [null]: the reply is built from the request's header and the handler's
    result, and nothing of the request's content enters it. *)
Theorem shutdown_reply_never_restarts sock msg w :
  nullish (header msg) = false ->
  (forall req j,
      JupyterHandlerImpl.handleShutdown req j
      = (Ok (mkShutdownReply false),
         mkJupyterHandlerImpl (ts j) (execCount j) (close (engine j)),
         [(log, ["shutdown_request:"; JSON_stringify req])]))
  /\ exists w',
      let reply := reply_message "shutdown_reply" (VObj [("restart", VBool false)])
                     msg (toISOString (clock w)) in
      ZmqServer.handleShutdown this sock msg w = (Ok tt, w')
      /\ trace w' =
         trace w
         ++ [Console log ["shutdown_request:"; JSON_stringify (content msg)]]
         ++ sending key sock reply
      /\ content reply = VObj [("restart", VBool false)].
Proof.
  intros N. split; [reflexivity|].
  eexists. cbv zeta.
  change (ZmqServer.handleShutdown this sock msg w)
    with ((reply <- createReply msg ;;
           let reply := set_msg_type reply "shutdown_reply" in
           c <- call (JupyterHandlerImpl.handleShutdown (content msg)) ;;
           let reply := set_content reply (ShutdownReply_object c) in
           signAndSend key sock reply) w).
  unfold bind. rewrite (createReply_spec _ _ N). unfold call. simpl.
  rewrite signAndSend_spec. cbn [trace].
  split; [reflexivity|]. split; [|reflexivity].
  now rewrite <- app_assoc.
Qed.

(** What [handleExecute] does whatever the engine reports: a reply with
    status [ok] and the counter after [++]. *)
Lemma handleExecute_spec req j :
  nullish req = false ->
  JupyterHandlerImpl.handleExecute req j =
  (Ok (mkExecuteReply "ok" (increment (execCount j))),
   mkJupyterHandlerImpl (ts j) (increment (execCount j))
     (snd (fst (execute (field req "code") (engine j)))),
   snd (execute (field req "code") (engine j))).
Proof.
  intros N. unfold JupyterHandlerImpl.handleExecute. rewrite (member_field _ _ N).
  now destruct (execute _ _) as [[ok e] out].
Qed.

Lemma increment_exact (n : Z) : (n < 2 ^ 53)%Z -> increment n = (n + 1)%Z.
Proof.
  intros L. unfold increment. destruct (Z.ltb_spec n (2 ^ 53)); [reflexivity | lia].
Qed.

(** One [execute_request], decoded: busy, what the engine printed, the
    reply with the next count, idle. *)
Lemma execute_request_spec sock raw w msg w1 :
  fromRaw key raw w = (Ok msg, w1) ->
  nullish (header msg) = false ->
  is_case (field (header msg) "msg_type") "execute_request" = true ->
  nullish (content msg) = false ->
  ZmqServer.handleShellMessage this sock raw w =
  (Ok tt,
   mkWorld
     (mkJupyterHandlerImpl (ts (handler w)) (increment (execCount (handler w)))
        (snd (fst (execute (field (content msg) "code") (engine (handler w))))))
     (3 + clock w)
     (trace w1
        ++ sending key iopub (status_message "busy" msg (toISOString (clock w)))
        ++ map console (snd (execute (field (content msg) "code")
                               (engine (handler w))))
        ++ sending key sock
             (reply_message "execute_reply"
                (ExecuteReply_object
                   (mkExecuteReply "ok" (increment (execCount (handler w)))))
                msg (toISOString (1 + clock w)))
        ++ sending key iopub
             (status_message "idle" msg (toISOString (2 + clock w))))).
Proof.
  intros D N T C.
  assert (K : is_case (field (header msg) "msg_type") "kernel_info_request" = false).
  { destruct (field (header msg) "msg_type"); try reflexivity. simpl in *.
    apply String.eqb_eq in T. now subst. }
  rewrite (handleShellMessage_decoded this sock raw w msg w1 D N).
  rewrite (route_dispatch _ _ _ _ N). unfold dispatch. rewrite K, T.
  rewrite (answer_spec _ _ _ _ _ _ N). fold key.
  destruct (fromRaw_sound _ _ _ _ _ D) as [_ [_ [_ ->]]].
  cbn [handler clock trace]. unfold returning.
  change (handleExecute (content msg)) with (JupyterHandlerImpl.handleExecute (content msg)).
  rewrite (handleExecute_spec _ _ C).
  cbn [handler clock trace]. f_equal. f_equal.
  now rewrite <- !app_assoc.
Qed.


(** *** A session: batches handled one after the other *)

Lemma increment_ge (n : Z) : (n <= increment n)%Z.
Proof. unfold increment. destruct (n <? 2 ^ 53)%Z; lia. Qed.

(** No call makes the counter go down. *)
Lemma handleShellMessage_counter sock raw w :
  (execCount (handler w)
   <= execCount (handler (snd (ZmqServer.handleShellMessage this sock raw w))))%Z.
Proof.
  destruct (fromRaw key raw w) as [[msg|e] w1] eqn:D.
  2:{ rewrite (handleShellMessage_undecoded this sock raw w e w1 D). simpl.
      destruct (fromRaw_world key raw w) as [W|W]; rewrite D in W; simpl in W;
        subst w1; simpl; lia. }
  assert (W : handler w1 = handler w)
    by now destruct (fromRaw_sound _ _ _ _ _ D) as [_ [_ [_ ->]]].
  destruct (nullish (header msg)) eqn:N.
  { destruct (publishStatus_nullish this "busy" msg w1 N) as [what P].
    unfold ZmqServer.handleShellMessage, bind. fold key. rewrite D, P.
    simpl. rewrite W. lia. }
  rewrite (handleShellMessage_decoded this sock raw w msg w1 D N).
  rewrite (route_dispatch _ _ _ _ N). unfold dispatch.
  destruct (is_case _ "kernel_info_request").
  { rewrite (answer_spec _ _ _ _ _ _ N). simpl. rewrite W. lia. }
  destruct (is_case _ "execute_request").
  { rewrite (answer_spec _ _ _ _ _ _ N). cbn [handler]. unfold returning.
    change (handleExecute (content msg)) with (JupyterHandlerImpl.handleExecute (content msg)).
    unfold JupyterHandlerImpl.handleExecute.
    destruct (member (content msg) "code") as [code|e]; [|simpl; rewrite W; lia].
    destruct (execute code (engine (handler w1))) as [[ok e] out]. simpl.
    rewrite W. apply increment_ge. }
  destruct (is_case _ "is_complete_request").
  { rewrite (answer_spec _ _ _ _ _ _ N). simpl. rewrite W. lia. }
  destruct (is_case _ "shutdown_request").
  { rewrite (answer_spec _ _ _ _ _ _ N). simpl. rewrite W. lia. }
  simpl. rewrite W. lia.
Qed.

Lemma serve_counter batches w :
  (execCount (handler w) <= execCount (handler (serve this batches w)))%Z.
Proof.
  revert w. induction batches as [|[sock raw] batches IH]; intros w.
  - simpl. lia.
  - simpl. etransitivity; [apply (handleShellMessage_counter sock raw)|apply IH].
Qed.

(** X5.  Two [execute_request]s of one session, with any batches handled
    between them: the count in the reply to the later one is greater. *)
Lemma later_execution_counts_higher sock1 sock2 raw1 raw2 between w msg1 wa msg2 wb :
  fromRaw key raw1 w = (Ok msg1, wa) ->
  fromRaw key raw2
    (serve this between (snd (ZmqServer.handleShellMessage this sock1 raw1 w)))
  = (Ok msg2, wb) ->
  nullish (header msg1) = false -> nullish (header msg2) = false ->
  is_case (field (header msg1) "msg_type") "execute_request" = true ->
  is_case (field (header msg2) "msg_type") "execute_request" = true ->
  nullish (content msg1) = false -> nullish (content msg2) = false ->
  let w1 := snd (ZmqServer.handleShellMessage this sock1 raw1 w) in
  let wm := serve this between w1 in
  let w2 := snd (ZmqServer.handleShellMessage this sock2 raw2 wm) in
  (execCount (handler wm) < 2 ^ 53)%Z ->
  exists c1 c2 date1 date2,
    In (Send sock1
          (wire key
             (reply_message "execute_reply"
                (VObj [("status", VStr "ok"); ("execution_count", VNum c1)])
                msg1 date1)))
       (trace w1)
    /\ In (Send sock2
             (wire key
                (reply_message "execute_reply"
                   (VObj [("status", VStr "ok"); ("execution_count", VNum c2)])
                   msg2 date2)))
          (trace w2)
    /\ (c1 < c2)%Z.
Proof.
  intros D1 D2 N1 N2 T1 T2 C1 C2. cbv zeta. intros L.
  pose proof (serve_counter between (snd (ZmqServer.handleShellMessage this sock1 raw1 w))) as Mo.
  pose proof (execute_request_spec sock1 raw1 w msg1 wa D1 N1 T1 C1) as E1.
  pose proof (execute_request_spec sock2 raw2 _ msg2 wb D2 N2 T2 C2) as E2.
  rewrite E1 in Mo, L, E2, D2 |- *. cbn [snd handler execCount] in Mo.
  set (wm := serve this between _) in *.
  rewrite E2. cbn [snd trace].
  assert (B : (execCount (handler w) < 2 ^ 53)%Z).
  { pose proof (increment_ge (execCount (handler w))). lia. }
  rewrite (increment_exact _ B) in *.
  rewrite (increment_exact _ L).
  exists (execCount (handler w) + 1)%Z, (execCount (handler wm) + 1)%Z.
  eexists. eexists. split; [|split; [|lia]].
  - apply in_or_app. right. apply in_or_app. right. apply in_or_app. right.
    apply in_or_app. left. right. left. reflexivity.
  - apply in_or_app. right. apply in_or_app. right. apply in_or_app. right.
    apply in_or_app. left. right. left. reflexivity.
Qed.

End HandlerFacts.

(** ** Encoding, then decoding *)

Section RoundTrip.

Context {R : Runtime} {H : Type}.

(** The frames [signAndSend] builds for [m], decoded under the same key:
    the signature verifies; the message that comes back has the fields of
    [m], the tag as its signature, and, for each extra buffer of [m], the
    JSON text [signAndSend] made of it.  The identity and the delimiter of
    [m] are JavaScript strings, that is, text; the bodies are values that
    survive [JSON.parse(JSON.stringify(x))]. *)
Lemma fromRaw_wire (key : string) (m : ZmqMessage) (w : World H) :
  text (identity m) -> text (delim m) ->
  JSON_parse (toString (JSON_stringify (header m))) = Some (header m) ->
  JSON_parse (toString (JSON_stringify (parent m))) = Some (parent m) ->
  JSON_parse (toString (JSON_stringify (metadata m))) = Some (metadata m) ->
  JSON_parse (toString (JSON_stringify (content m))) = Some (content m) ->
  fromRaw key (wire key m) w =
  (Ok (mkZmqMessage (identity m) (delim m) (tag key (bodies m))
         (header m) (parent m) (metadata m) (content m)
         (map (fun e => JSON_stringify (Buffer_toJSON e)) (extra m))),
   mkWorld (handler w) (clock w) (trace w ++ [Digest key (bodies m)])).
Proof.
  intros Ti Td Eh Ep Em Ec. unfold wire, bodies. cbn [app].
  rewrite (fromRaw_framed _ _ _ _ _ _ _ _ _ _ _ _ _ _ Eh Ep Em Ec).
  now rewrite String.eqb_refl, Ti, Td.
Qed.

(** X1.  Without extra buffers, with an identity and a delimiter that
    are text, and with bodies that survive [JSON.parse(JSON.stringify(x))],
    the round trip is the identity, the signature apart: it comes back as
    the recomputed tag, and verifies. *)
Lemma fromRaw_wire_no_extra (key : string) (m : ZmqMessage) (w : World H) :
  extra m = [] ->
  text (identity m) -> text (delim m) ->
  JSON_parse (toString (JSON_stringify (header m))) = Some (header m) ->
  JSON_parse (toString (JSON_stringify (parent m))) = Some (parent m) ->
  JSON_parse (toString (JSON_stringify (metadata m))) = Some (metadata m) ->
  JSON_parse (toString (JSON_stringify (content m))) = Some (content m) ->
  exists m',
    fromRaw key (wire key m) w =
    (Ok m', mkWorld (handler w) (clock w) (trace w ++ [Digest key (bodies m)]))
    /\ identity m' = identity m /\ delim m' = delim m
    /\ header m' = header m /\ parent m' = parent m
    /\ metadata m' = metadata m /\ content m' = content m
    /\ extra m' = extra m
    /\ hmac m' = tag key (bodies m).
Proof.
  intros X Ti Td Eh Ep Em Ec. eexists.
  split; [apply (fromRaw_wire key m w Ti Td Eh Ep Em Ec)|].
  cbn. rewrite X. repeat split.
Qed.

(** C5, as the code has it.  Decoding the frames [signAndSend] builds for
    a message, under the same key: the recomputed signature verifies, and
    the message that comes back is equal to the one encoded in its
    identity, delimiter, header, parent header, metadata and content.  Its
    extra buffers are the JSON texts [signAndSend] made of the extra
    buffers encoded, one for each and in order, so that the whole message
    comes back, the signature apart, when it has no extra buffer. *)
Theorem round_trip_serializes_extras (key : string) (m : ZmqMessage) (w : World H) :
  text (identity m) -> text (delim m) ->
  JSON_parse (toString (JSON_stringify (header m))) = Some (header m) ->
  JSON_parse (toString (JSON_stringify (parent m))) = Some (parent m) ->
  JSON_parse (toString (JSON_stringify (metadata m))) = Some (metadata m) ->
  JSON_parse (toString (JSON_stringify (content m))) = Some (content m) ->
  exists m',
    fromRaw key (wire key m) w =
    (Ok m', mkWorld (handler w) (clock w) (trace w ++ [Digest key (bodies m)]))
    /\ nth_error (wire key m) 2 = Some (hmac m')
    /\ hmac m' = tag key (skipn 3 (wire key m))
    /\ identity m' = identity m /\ delim m' = delim m
    /\ header m' = header m /\ parent m' = parent m
    /\ metadata m' = metadata m /\ content m' = content m
    /\ extra m' = map (fun e => JSON_stringify (Buffer_toJSON e)) (extra m)
    /\ length (extra m') = length (extra m)
    /\ (extra m = [] -> extra m' = extra m).
Proof.
  intros Ti Td Eh Ep Em Ec. eexists.
  split; [apply (fromRaw_wire key m w Ti Td Eh Ep Em Ec)|].
  cbn [hmac identity delim header parent metadata content extra].
  repeat split.
  - apply length_map.
  - now intros ->.
Qed.

End RoundTrip.

(** C5 as stated fails.  A message with one extra buffer, the byte [a]:
    its frames decode, the signature verifies, every other field comes
    back, and the extra buffer comes back as the JSON text of
    [{type: "Buffer", data: [97]}], which is not the buffer encoded. *)
Theorem extra_buffer_does_not_round_trip :
  let m := mkZmqMessage "client-1" "<IDS|MSG>" ""
             (header (Sample.request "execute_request" (VObj [])))
             (VObj []) (VObj []) (VObj [("code", VStr "1+1")]) ["a"] in
  exists m' w',
    fromRaw (R := Sample.runtime) (H := unit) "secret"
      (wire (R := Sample.runtime) "secret" m) (mkWorld tt 0 []) = (Ok m', w')
    /\ identity m' = identity m /\ delim m' = delim m
    /\ header m' = header m /\ parent m' = parent m
    /\ metadata m' = metadata m /\ content m' = content m
    /\ extra m' = [Sample.stringify (Buffer_toJSON "a")]
    /\ extra m' <> extra m.
Proof.
  cbv zeta. eexists. eexists.
  split; [vm_compute; reflexivity|].
  repeat split. vm_compute. discriminate.
Qed.

(** ** Every call, whatever the batch *)

Lemma sockets_app (a b : list Event) : sockets (a ++ b) = sockets a ++ sockets b.
Proof. unfold sockets. now rewrite flat_map_app. Qed.

Lemma sockets_console (out : list Line) : sockets (map console out) = [].
Proof. induction out as [|l out IH]; [reflexivity | exact IH]. Qed.

Lemma sockets_sending {R : Runtime} (key : string) (sock : Socket) (m : ZmqMessage) :
  sockets (sending key sock m) = [sock].
Proof. reflexivity. Qed.

Lemma wire_signed {R : Runtime} (key : string) (m : ZmqMessage) :
  nth_error (wire key m) 2 = Some (tag key (skipn 3 (wire key m))).
Proof. reflexivity. Qed.

Lemma wire_length {R : Runtime} (key : string) (m : ZmqMessage) :
  extra m = [] -> length (wire key m) = 7%nat.
Proof. intros X. unfold wire, bodies. now rewrite X. Qed.

Lemma published_elsewhere {R : Runtime} (key : string) (sock : Socket)
    (reply : option ZmqMessage) :
  sock <> iopub -> published (replying key sock reply) = [].
Proof.
  intros S. destruct reply as [m|]; [|reflexivity].
  destruct sock; try reflexivity. now elim S.
Qed.

Lemma redirect_console (a b : Socket) (out : list Line) :
  map (redirect a b) (map console out) = map console out.
Proof. rewrite map_map. apply map_ext. now intros [s l]. Qed.

Lemma redirect_replying {R : Runtime} (key : string) (a b : Socket)
    (reply : option ZmqMessage) :
  map (redirect a b) (replying key a reply) = replying key b reply.
Proof. destruct reply as [m|]; [|reflexivity]. simpl. now destruct a. Qed.

Lemma redirect_status {R : Runtime} (key : string) (a b : Socket) (m : ZmqMessage) :
  a <> iopub -> map (redirect a b) (sending key iopub m) = sending key iopub m.
Proof. intros S. destruct a; try reflexivity. now elim S. Qed.

Section EveryCall.

Context {R : Runtime} {H : Type} {JH : JupyterHandler H}.

Variable this : ZmqServer.

Implicit Types (w : World H) (msg : ZmqMessage) (raw : list Buffer).

Let key := key (connInfo this).

(** The anatomy of a call.  Whatever the batch and the world, the call
    ends in a world that does not depend on the socket but for the one
    reply: either the batch was dropped, with nothing sent, or it was
    served: the digest, busy, the console lines, at most one reply, idle. *)
Lemma handleShellMessage_anatomy raw w :
  exists r h n pre reply post,
    (forall sock,
        ZmqServer.handleShellMessage this sock raw w
        = (r, mkWorld h n (trace w ++ pre ++ replying key sock reply ++ post)))
    /\ ((forall s f, ~ In (Send s f) pre) /\ reply = None /\ post = []
        \/ exists msg w1 d1 d2 out,
             fromRaw key raw w = (Ok msg, w1)
             /\ pre = [Digest key (skipn 3 raw)]
                      ++ sending key iopub (status_message "busy" msg d1)
                      ++ map console out
             /\ post = sending key iopub (status_message "idle" msg d2)
             /\ (reply = None
                 \/ exists t c d, reply = Some (reply_message t c msg d))).
Proof.
  destruct (fromRaw key raw w) as [[msg|e] w1] eqn:D.
  2:{ destruct (fromRaw_world key raw w) as [W|W]; rewrite D in W; cbn [snd] in W;
        subst w1.
      - exists (Throw e), (handler w), (clock w), [], None, []. split.
        + intros sock. rewrite (handleShellMessage_undecoded this sock raw w e _ D).
          simpl. rewrite app_nil_r. now destruct w.
        + left. split; [intros s f []|now split].
      - exists (Throw e), (handler w), (clock w), [Digest key (skipn 3 raw)], None, [].
        split.
        + intros sock. now rewrite (handleShellMessage_undecoded this sock raw w e _ D).
        + left. split; [|now split]. intros s f [I|[]]. discriminate. }
  destruct (fromRaw_sound _ _ _ _ _ D) as [_ [_ [_ W]]].
  destruct (nullish (header msg)) eqn:N.
  { destruct (publishStatus_nullish this "busy" msg w1 N) as [what P].
    exists (Throw (TypeError what)), (handler w), (S (clock w)),
      [Digest key (skipn 3 raw)], None, [].
    split.
    - intros sock. unfold ZmqServer.handleShellMessage, bind. fold key.
      rewrite D, P. now subst w1.
    - left. split; [|now split]. intros s f [I|[]]. discriminate. }
  pose (d1 := toISOString (clock w1)).
  pose (wb := mkWorld (handler w1) (S (clock w1))
                (trace w1 ++ sending key iopub (status_message "busy" msg d1))).
  destruct (dispatch (field (header msg) "msg_type") (content msg))
    as [[t method]|] eqn:T.
  - destruct (method (handler w1)) as [[[c|e] h] out] eqn:Em.
    + exists (Ok tt), h, (3 + clock w1)%nat,
        ([Digest key (skipn 3 raw)]
           ++ sending key iopub (status_message "busy" msg d1) ++ map console out),
        (Some (reply_message t c msg (toISOString (1 + clock w1)))),
        (sending key iopub (status_message "idle" msg (toISOString (2 + clock w1)))).
      split.
      * intros sock.
        rewrite (handleShellMessage_decoded this sock raw w msg w1 D N).
        rewrite (route_dispatch _ _ _ _ N), T, (answer_spec _ _ _ _ _ _ N).
        cbn [handler clock trace]. rewrite Em. cbn [handler clock trace replying].
        fold key. subst w1. cbn [trace clock]. now rewrite <- !app_assoc.
      * right. exists msg, w1, d1, (toISOString (2 + clock w1)), out.
        repeat split. right. eauto.
    + exists (Throw e), h, (3 + clock w1)%nat,
        ([Digest key (skipn 3 raw)]
           ++ sending key iopub (status_message "busy" msg d1) ++ map console out),
        None,
        (sending key iopub (status_message "idle" msg (toISOString (2 + clock w1)))).
      split.
      * intros sock.
        rewrite (handleShellMessage_decoded this sock raw w msg w1 D N).
        rewrite (route_dispatch _ _ _ _ N), T, (answer_spec _ _ _ _ _ _ N).
        cbn [handler clock trace]. rewrite Em. cbn [handler clock trace replying].
        fold key. subst w1. cbn [trace clock]. now rewrite <- !app_assoc.
      * right. exists msg, w1, d1, (toISOString (2 + clock w1)), out.
        repeat split. now left.
  - exists (unknown (String_of (field (header msg) "msg_type"))),
      (handler w1), (2 + clock w1)%nat,
      ([Digest key (skipn 3 raw)]
         ++ sending key iopub (status_message "busy" msg d1)
         ++ map console (warning (String_of (field (header msg) "msg_type")))),
      None,
      (sending key iopub (status_message "idle" msg (toISOString (1 + clock w1)))).
    split.
    + intros sock.
      rewrite (handleShellMessage_decoded this sock raw w msg w1 D N).
      rewrite (route_dispatch _ _ _ _ N), T.
      cbn [handler clock trace replying]. fold key.
      subst w1. cbn [trace clock]. now rewrite <- !app_assoc.
    + right. exists msg, w1, d1, (toISOString (1 + clock w1)),
        (warning (String_of (field (header msg) "msg_type"))).
      repeat split. now left.
Qed.

(** X8.  Every batch the server sends carries its own signature: it has
    seven frames (routing identity, delimiter, signature, header, parent
    header, metadata, content), and the signature frame is the tag, under
    the server's key, of the four that follow it. This holds for every call,
    whatever the batch it was given and whatever the handler did. *)
Theorem sent_batches_are_signed sock raw w :
  exists new,
    trace (snd (ZmqServer.handleShellMessage this sock raw w)) = trace w ++ new
    /\ forall s f,
         In (Send s f) new ->
         length f = 7%nat /\ nth_error f 2 = Some (tag key (skipn 3 f)).
Proof.
  destruct (handleShellMessage_anatomy raw w)
    as [r [h [n [pre [reply [post [E Sh]]]]]]].
  exists (pre ++ replying key sock reply ++ post).
  rewrite (E sock). split; [reflexivity|].
  assert (St : forall state msg d s f,
             In (Send s f) (sending key iopub (status_message state msg d)) ->
             length f = 7%nat /\ nth_error f 2 = Some (tag key (skipn 3 f))).
  { intros state msg d s f [I|[I|[]]]; [discriminate|]. injection I as <- <-.
    split; [now apply wire_length | apply wire_signed]. }
  intros s f I.
  destruct Sh as [[P [-> ->]]|[msg [w1 [d1 [d2 [out [_ [-> [-> Rp]]]]]]]]].
  - rewrite app_nil_r in I. now elim (P s f).
  - rewrite !in_app_iff in I.
    destruct I as [[[I|[]]|[I|I]]|[I|I]];
      [discriminate | now apply (St _ _ _ _ _ I) | | | now apply (St _ _ _ _ _ I)].
    + apply in_map_iff in I. destruct I as [l [X _]]. discriminate.
    + destruct Rp as [->|[t [c [d ->]]]]; [destruct I|].
      destruct I as [I|[I|[]]]; [discriminate|]. injection I as <- <-.
      split; [now apply wire_length | apply wire_signed].
Qed.

(** X9.  What a call sends, socket by socket: nothing at all (the batch was
    dropped), or busy and idle on the broadcast socket with at most one
    batch between them, sent on the socket the request came in on. No call
    sends on any other socket, or more than one reply. *)
Theorem a_call_sends_statuses_and_one_reply sock raw w :
  exists new,
    trace (snd (ZmqServer.handleShellMessage this sock raw w)) = trace w ++ new
    /\ (sockets new = []
        \/ sockets new = [iopub; iopub]
        \/ sockets new = [iopub; sock; iopub]).
Proof.
  destruct (handleShellMessage_anatomy raw w)
    as [r [h [n [pre [reply [post [E Sh]]]]]]].
  exists (pre ++ replying key sock reply ++ post).
  rewrite (E sock). split; [reflexivity|].
  destruct Sh as [[P [-> ->]]|[msg [w1 [d1 [d2 [out [_ [-> [-> Rp]]]]]]]]].
  - left. cbn [replying]. rewrite !app_nil_r.
    clear E. induction pre as [|e pre IH]; [reflexivity|].
    destruct e as [k c|s f|st a].
    + apply IH. intros s f I. apply (P s f). now right.
    + elim (P s f). now left.
    + apply IH. intros s f I. apply (P s f). now right.
  - right. rewrite !sockets_app, sockets_console, !sockets_sending.
    destruct Rp as [->|[t [c [d ->]]]]; [now left | now right].
Qed.

(** X10.  The shell and the control socket are served alike: the same batch
    in the same world has the same outcome on either, leaves the same
    handler and the same clock, and the same trace but for the socket the
    reply goes out on. *)
Theorem shell_and_control_are_served_alike a b raw w :
  a <> iopub ->
  exists r h n new,
    ZmqServer.handleShellMessage this a raw w = (r, mkWorld h n (trace w ++ new))
    /\ ZmqServer.handleShellMessage this b raw w
       = (r, mkWorld h n (trace w ++ map (redirect a b) new)).
Proof.
  intros S.
  destruct (handleShellMessage_anatomy raw w)
    as [r [h [n [pre [reply [post [E Sh]]]]]]].
  exists r, h, n, (pre ++ replying key a reply ++ post).
  split; [apply E|]. rewrite (E b). do 3 f_equal.
  rewrite !map_app, redirect_replying.
  destruct Sh as [[P [-> ->]]|[msg [w1 [d1 [d2 [out [_ [-> [-> Rp]]]]]]]]].
  - cbn [replying map]. rewrite !app_nil_r. clear E. induction pre as [|e pre IH]; [reflexivity|].
    simpl. rewrite <- IH by (intros s f I; apply (P s f); now right).
    destruct e as [k c|s f|st l]; try reflexivity. elim (P s f). now left.
  - rewrite !map_app, redirect_console, !(redirect_status _ _ _ _ S). reflexivity.
Qed.

(** X11.  A session on sockets other than the broadcast socket: the status
    messages it publishes are busy and idle in pairs, each pair for one
    request, at most one pair for each batch; nothing else is published, and
    the kernel is never left busy. *)
Theorem statuses_come_in_pairs batches w :
  Forall (fun b => fst b <> iopub) batches ->
  exists pairs,
    published (trace (serve this batches w))
    = published (trace w) ++ flat_map (bracket key) pairs
    /\ (length pairs <= length batches)%nat.
Proof.
  intros F. revert w. induction F as [|[sock raw] batches S F IH]; intros w.
  - exists []. split; [simpl; now rewrite app_nil_r | apply le_n].
  - simpl in S. cbn [serve fold_left fst snd].
    destruct (IH (snd (ZmqServer.handleShellMessage this sock raw w)))
      as [pairs [P L]].
    change (fold_left _ batches ?x) with (serve this batches x).
    rewrite P. clear P IH.
    destruct (handleShellMessage_anatomy raw w)
      as [r [h [n [pre [reply [post [E Sh]]]]]]].
    rewrite (E sock). cbn [snd trace].
    rewrite !published_app, (published_elsewhere _ _ _ S).
    destruct Sh as [[P [-> ->]]|[msg [w1 [d1 [d2 [out [_ [-> [-> Rp]]]]]]]]].
    + exists pairs. split; [|simpl; lia].
      rewrite (published_none pre) by (intros f; apply P). simpl.
      now rewrite app_nil_r.
    + exists ((msg, d1, d2) :: pairs). split; [|simpl; lia].
      rewrite !published_app, published_console, !published_sending.
      simpl. now rewrite <- app_assoc.
Qed.

End EveryCall.

(** ** What is accepted as a message *)

Section Accepting.

Context {R : Runtime} {H : Type}.

Implicit Types (w : World H) (msg : ZmqMessage) (raw : list Buffer).

(** X12.  The batches [fromRaw] returns a message for are exactly those
    whose four body frames are there and parse, once read as text, and
    whose third frame is the tag of all the frames after it.  The message
    holds the first two frames as [toString] reads them (which is the
    frame itself only when its bytes are well-formed UTF-8), the values
    the body frames parse to, and the frames after the seventh as they
    came, byte for byte: those are signed but never read or parsed. *)
Theorem fromRaw_accepts_exactly_the_signed key raw w :
  ((exists msg w', fromRaw key raw w = (Ok msg, w'))
   <-> json_frames_ok raw = true /\ nth_error raw 2 = Some (tag key (skipn 3 raw)))
  /\ forall msg w',
       fromRaw key raw w = (Ok msg, w') ->
       option_map toString (nth_error raw 0) = Some (identity msg)
       /\ option_map toString (nth_error raw 1) = Some (delim msg)
       /\ option_map (fun f => JSON_parse (toString f)) (nth_error raw 3)
          = Some (Some (header msg))
       /\ option_map (fun f => JSON_parse (toString f)) (nth_error raw 4)
          = Some (Some (parent msg))
       /\ option_map (fun f => JSON_parse (toString f)) (nth_error raw 5)
          = Some (Some (metadata msg))
       /\ option_map (fun f => JSON_parse (toString f)) (nth_error raw 6)
          = Some (Some (content msg))
       /\ extra msg = skipn 7 raw.
Proof.
  split; [split|].
  - intros [msg [w' D]].
    destruct (fromRaw_sound key raw w msg w' D) as [S2 [T [J _]]].
    split; [exact J | now rewrite S2, T].
  - intros [J S2]. unfold json_frames_ok in J.
    destruct raw as [|i [|d [|s [|h [|p [|m [|c ext]]]]]]];
      simpl in J; try discriminate;
      try (destruct (JSON_parse (toString h)); try discriminate;
           destruct (JSON_parse (toString p)); try discriminate;
           destruct (JSON_parse (toString m)); discriminate).
    simpl in S2. injection S2 as ->.
    destruct (JSON_parse (toString h)) as [hv|] eqn:Eh; [|discriminate].
    destruct (JSON_parse (toString p)) as [pv|] eqn:Ep; [|discriminate].
    destruct (JSON_parse (toString m)) as [mv|] eqn:Em; [|discriminate].
    destruct (JSON_parse (toString c)) as [cv|] eqn:Ec; [|discriminate].
    rewrite (fromRaw_framed key i d _ h p m c ext hv pv mv cv w Eh Ep Em Ec).
    rewrite String.eqb_refl. eauto.
  - intros msg w' D.
    destruct (fromRaw_sound key raw w msg w' D) as [_ [_ [J _]]].
    unfold json_frames_ok in J.
    destruct raw as [|i [|d [|s [|h [|p [|m [|c ext]]]]]]];
      simpl in J; try discriminate;
      try (destruct (JSON_parse (toString h)); try discriminate;
           destruct (JSON_parse (toString p)); try discriminate;
           destruct (JSON_parse (toString m)); discriminate).
    destruct (JSON_parse (toString h)) as [hv|] eqn:Eh; [|discriminate].
    destruct (JSON_parse (toString p)) as [pv|] eqn:Ep; [|discriminate].
    destruct (JSON_parse (toString m)) as [mv|] eqn:Em; [|discriminate].
    destruct (JSON_parse (toString c)) as [cv|] eqn:Ec; [|discriminate].
    rewrite (fromRaw_framed key i d s h p m c ext hv pv mv cv w Eh Ep Em Ec) in D.
    destruct (String.eqb _ s); [|discriminate].
    injection D as <- _. simpl. now rewrite Eh, Ep, Em, Ec.
Qed.

(** X13.  A batch of fewer than seven frames is never a message, whatever it
    holds and however it is signed: [fromRaw] throws before it takes the
    digest, a [SyntaxError] if one of the body frames it has does not parse,
    and otherwise the [TypeError] of reading the first frame that is
    missing. *)
Theorem short_batch_is_rejected key raw w :
  (length raw < 7)%nat ->
  exists e,
    fromRaw key raw w = (Throw e, w)
    /\ (e = TypeError "Cannot read property 'toString' of undefined"
        \/ exists f,
             In f raw /\ JSON_parse (toString f) = None
             /\ e = SyntaxError (toString f)).
Proof.
  intros L.
  destruct raw as [|i [|d [|s raw3]]];
    try (eexists; split; [reflexivity | now left]).
  destruct raw3 as [|h raw4]; [eexists; split; [reflexivity | now left]|].
  destruct (JSON_parse (toString h)) as [hv|] eqn:Eh.
  2:{ eexists. split; [step_fromRaw; rewrite Eh; reflexivity|].
      right. exists h. simpl. tauto. }
  destruct raw4 as [|p raw5];
    [eexists; split; [step_fromRaw; rewrite Eh; reflexivity | now left]|].
  destruct (JSON_parse (toString p)) as [pv|] eqn:Ep.
  2:{ eexists. split; [step_fromRaw; rewrite Eh, Ep; reflexivity|].
      right. exists p. simpl. tauto. }
  destruct raw5 as [|m raw6];
    [eexists; split; [step_fromRaw; rewrite Eh, Ep; reflexivity | now left]|].
  destruct (JSON_parse (toString m)) as [mv|] eqn:Em.
  2:{ eexists. split; [step_fromRaw; rewrite Eh, Ep, Em; reflexivity|].
      right. exists m. simpl. tauto. }
  destruct raw6 as [|c ext];
    [eexists; split; [step_fromRaw; rewrite Eh, Ep, Em; reflexivity | now left]|].
  simpl in L. lia.
Qed.

End Accepting.

(** ** The handler over a session *)

Section Session.

Context {R : Runtime} {E : Type} {Eng : Engine E}.

Variable this : ZmqServer.

Implicit Types (w : World (JupyterHandlerImpl E)) (msg : ZmqMessage)
  (raw : list Buffer) (j : JupyterHandlerImpl E).

Let key := key (connInfo this).

(** What one call does to the handler: the flag stays, and the counter
    stays unless the batch decoded to an [execute_request]. *)
Lemma handleShellMessage_handler sock raw w :
  let j' := handler (snd (ZmqServer.handleShellMessage this sock raw w)) in
  ts j' = ts (handler w)
  /\ (execCount j' = execCount (handler w)
      \/ execCount j' = increment (execCount (handler w))
         /\ exists msg w1,
              fromRaw key raw w = (Ok msg, w1)
              /\ is_case (field (header msg) "msg_type") "execute_request" = true).
Proof.
  cbv zeta.
  destruct (fromRaw key raw w) as [[msg|e] w1] eqn:D.
  2:{ rewrite (handleShellMessage_undecoded this sock raw w e w1 D). cbn [snd].
      destruct (fromRaw_world key raw w) as [W|W]; rewrite D in W; cbn [snd] in W;
        subst w1; split; auto. }
  assert (W : handler w1 = handler w)
    by now destruct (fromRaw_sound _ _ _ _ _ D) as [_ [_ [_ ->]]].
  destruct (nullish (header msg)) eqn:N.
  { destruct (publishStatus_nullish this "busy" msg w1 N) as [what P].
    unfold ZmqServer.handleShellMessage, bind. fold key. rewrite D, P.
    cbn [snd handler]. rewrite W. auto. }
  rewrite (handleShellMessage_decoded this sock raw w msg w1 D N).
  rewrite (route_dispatch _ _ _ _ N). unfold dispatch.
  destruct (is_case _ "kernel_info_request").
  { rewrite (answer_spec _ _ _ _ _ _ N). simpl. rewrite W. auto. }
  destruct (is_case _ "execute_request") eqn:T.
  { rewrite (answer_spec _ _ _ _ _ _ N). cbn [handler]. unfold returning.
    change (handleExecute (content msg))
      with (JupyterHandlerImpl.handleExecute (content msg)).
    unfold JupyterHandlerImpl.handleExecute.
    destruct (member (content msg) "code") as [code|e]; [|simpl; rewrite W; auto].
    destruct (execute code (engine (handler w1))) as [[ok e] out]. simpl.
    rewrite W. split; [reflexivity|]. right. split; [reflexivity|]. eauto. }
  destruct (is_case _ "is_complete_request").
  { rewrite (answer_spec _ _ _ _ _ _ N). simpl. rewrite W. auto. }
  destruct (is_case _ "shutdown_request").
  { rewrite (answer_spec _ _ _ _ _ _ N). simpl. rewrite W. auto. }
  simpl. rewrite W. auto.
Qed.

Lemma serve_ts batches w : ts (handler (serve this batches w)) = ts (handler w).
Proof.
  revert w. induction batches as [|[sock raw] batches IH]; intros w; [reflexivity|].
  cbn [serve fold_left fst snd].
  change (fold_left _ batches ?x) with (serve this batches x).
  rewrite IH. apply (handleShellMessage_handler sock raw w).
Qed.

(** X14.  Only an [execute_request] moves the execution counter, and by one
    step of [++]; no request changes the variant the handler was constructed
    for. So a batch that is dropped, a request of another type, and a
    request of an unknown type all leave the numbering of cells where it
    was. *)
Theorem only_execute_request_counts sock raw w :
  let j' := handler (snd (ZmqServer.handleShellMessage this sock raw w)) in
  ts j' = ts (handler w)
  /\ (execCount j' = execCount (handler w)
      \/ execCount j' = increment (execCount (handler w))
         /\ exists msg w1,
              fromRaw key raw w = (Ok msg, w1)
              /\ is_case (field (header msg) "msg_type") "execute_request" = true).
Proof. apply handleShellMessage_handler. Qed.

(** A [kernel_info_request], decoded: busy, the reply with what
    [handleKernel] says for the flag of the handler, idle. *)
Lemma kernel_info_request_spec sock raw w msg w1 :
  fromRaw key raw w = (Ok msg, w1) ->
  nullish (header msg) = false ->
  is_case (field (header msg) "msg_type") "kernel_info_request" = true ->
  ZmqServer.handleShellMessage this sock raw w =
  (Ok tt,
   mkWorld (handler w) (3 + clock w)
     (trace w1
        ++ sending key iopub (status_message "busy" msg (toISOString (clock w)))
        ++ sending key sock
             (reply_message "kernel_info_reply"
                (KernelInfoReply_object
                   (mkKernelInfoReply "5.3"
                      (if ts (handler w) then "tslab" else "jslab") "1.0.0"
                      (mkLanguageInfo "javascript" "" ""
                         (if ts (handler w) then ".ts" else ".js"))
                      "TypeScript"))
                msg (toISOString (1 + clock w)))
        ++ sending key iopub
             (status_message "idle" msg (toISOString (2 + clock w))))).
Proof.
  intros D N T.
  rewrite (handleShellMessage_decoded this sock raw w msg w1 D N).
  rewrite (route_dispatch _ _ _ _ N). unfold dispatch. rewrite T.
  rewrite (answer_spec _ _ _ _ _ _ N). fold key.
  destruct (fromRaw_sound _ _ _ _ _ D) as [_ [_ [_ ->]]].
  cbn [handler clock trace]. unfold returning.
  change (handleKernel (handler w)) with (JupyterHandlerImpl.handleKernel (handler w)).
  unfold JupyterHandlerImpl.handleKernel.
  cbn [handler clock trace]. f_equal. f_equal. now rewrite <- !app_assoc.
Qed.

(** X7.  A [kernel_info_request] (decoded, its header not [null]) is
    answered on the socket it came in on, between busy and idle, with
    protocol version 5.3 and with the implementation name and the file
    extension of the variant the handler was constructed for: [tslab] and
    [.ts] with the flag set, [jslab] and [.js] without.  Nothing of the
    request enters the content of the reply, and the handler is left as
    it was. *)
Theorem kernel_info_reply_follows_flag sock raw w msg w1 :
  fromRaw key raw w = (Ok msg, w1) ->
  nullish (header msg) = false ->
  is_case (field (header msg) "msg_type") "kernel_info_request" = true ->
  let variant := if ts (handler w) then ("tslab", ".ts") else ("jslab", ".js") in
  ZmqServer.handleShellMessage this sock raw w =
  (Ok tt,
   mkWorld (handler w) (3 + clock w)
     (trace w1
        ++ sending key iopub (status_message "busy" msg (toISOString (clock w)))
        ++ sending key sock
             (reply_message "kernel_info_reply"
                (VObj [("protocol_version", VStr "5.3");
                       ("implementation", VStr (fst variant));
                       ("implementation_version", VStr "1.0.0");
                       ("language_info",
                         VObj [("name", VStr "javascript");
                               ("version", VStr "");
                               ("mimetype", VStr "");
                               ("file_extension", VStr (snd variant))]);
                       ("banner", VStr "TypeScript")])
                msg (toISOString (1 + clock w)))
        ++ sending key iopub
             (status_message "idle" msg (toISOString (2 + clock w))))).
Proof.
  intros D N T. cbv zeta.
  rewrite (kernel_info_request_spec sock raw w msg w1 D N T).
  now destruct (ts (handler w)).
Qed.

(** X15.  The kernel [main] starts reports the TypeScript variant for as
    long as it runs: whatever the command line and whatever batches the
    server has handled since, a [kernel_info_request] is answered, on the
    socket it came in on, with implementation [tslab] and file extension
    [.ts], and leaves the handler as it was. *)
Theorem started_kernel_stays_ts (argv : list string) (e : E) j path batches n tr
    sock raw msg w1 :
  main argv e = Ok (j, path) ->
  let w := serve this batches (mkWorld j n tr) in
  fromRaw key raw w = (Ok msg, w1) ->
  nullish (header msg) = false ->
  is_case (field (header msg) "msg_type") "kernel_info_request" = true ->
  let info :=
    mkKernelInfoReply "5.3" "tslab" "1.0.0"
      (mkLanguageInfo "javascript" "" "" ".ts") "TypeScript" in
  ZmqServer.handleShellMessage this sock raw w =
  (Ok tt,
   mkWorld (handler w) (3 + clock w)
     (trace w1
        ++ sending key iopub (status_message "busy" msg (toISOString (clock w)))
        ++ sending key sock
             (reply_message "kernel_info_reply" (KernelInfoReply_object info)
                msg (toISOString (1 + clock w)))
        ++ sending key iopub
             (status_message "idle" msg (toISOString (2 + clock w))))).
Proof.
  intros Mn w D N T. cbv zeta.
  assert (F : ts (handler w) = true).
  { unfold w. rewrite serve_ts. cbn [handler]. apply (main_handler_ts argv e j path Mn). }
  rewrite (kernel_info_request_spec sock raw w msg w1 D N T). now rewrite F.
Qed.

(** X16.  An [is_complete_request] is answered [complete] whatever code it
    asks about: the content of the request does not enter the reply, and the
    handler is left as it was. *)
Theorem is_complete_request_is_answered_complete sock raw w msg w1 :
  fromRaw key raw w = (Ok msg, w1) ->
  nullish (header msg) = false ->
  is_case (field (header msg) "msg_type") "is_complete_request" = true ->
  ZmqServer.handleShellMessage this sock raw w =
  (Ok tt,
   mkWorld (handler w) (3 + clock w)
     (trace w1
        ++ sending key iopub (status_message "busy" msg (toISOString (clock w)))
        ++ sending key sock
             (reply_message "is_complete_reply" (VObj [("status", VStr "complete")])
                msg (toISOString (1 + clock w)))
        ++ sending key iopub
             (status_message "idle" msg (toISOString (2 + clock w))))).
Proof.
  intros D N T.
  assert (K : is_case (field (header msg) "msg_type") "kernel_info_request" = false
              /\ is_case (field (header msg) "msg_type") "execute_request" = false).
  { destruct (field (header msg) "msg_type"); try (now split). simpl in *.
    apply String.eqb_eq in T. now subst. }
  destruct K as [K1 K2].
  rewrite (handleShellMessage_decoded this sock raw w msg w1 D N).
  rewrite (route_dispatch _ _ _ _ N). unfold dispatch. rewrite K1, K2, T.
  rewrite (answer_spec _ _ _ _ _ _ N). fold key.
  destruct (fromRaw_sound _ _ _ _ _ D) as [_ [_ [_ ->]]].
  cbn [handler clock trace]. unfold returning. simpl.
  f_equal. f_equal. now rewrite <- !app_assoc.
Qed.

End Session.

(** ** The identity of a message *)

Lemma hex_digits_of_a_byte (c : ascii) :
  ascii_of_nat (16 * unhex_digit (hex_digit (nat_of_ascii c / 16))
                + unhex_digit (hex_digit (nat_of_ascii c mod 16))) = c.
Proof.
  destruct c as [[|] [|] [|] [|] [|] [|] [|] [|]]; vm_compute; reflexivity.
Qed.

Lemma hex_digits_inj (c c' : ascii) :
  hex_digit (nat_of_ascii c / 16) = hex_digit (nat_of_ascii c' / 16) ->
  hex_digit (nat_of_ascii c mod 16) = hex_digit (nat_of_ascii c' mod 16) ->
  c = c'.
Proof.
  intros Hi Lo.
  rewrite <- (hex_digits_of_a_byte c), <- (hex_digits_of_a_byte c').
  now rewrite Hi, Lo.
Qed.

Lemma toString_hex_inj (a b : Buffer) : toString_hex a = toString_hex b -> a = b.
Proof.
  revert b. induction a as [|c a IH]; intros [|c' b] E; try discriminate.
  - reflexivity.
  - change (String (hex_digit (nat_of_ascii c / 16))
              (String (hex_digit (nat_of_ascii c mod 16)) (toString_hex a))
            = String (hex_digit (nat_of_ascii c' / 16))
                (String (hex_digit (nat_of_ascii c' mod 16)) (toString_hex b))) in E.
    injection E as Hi Lo E.
    now rewrite (hex_digits_inj c c' Hi Lo), (IH b E).
Qed.

(** Taking the hyphen out of an identity gives back the digits. *)
Lemma newIdentity_hex (random : Buffer) :
  String.length random = 16%nat ->
  (substring 0 8 (newIdentity random) ++ substr_from (newIdentity random) 9)%string
  = toString_hex random.
Proof. intros L. sixteen random. reflexivity. Qed.

(** X17.  [newIdentity] on sixteen random bytes: thirty-three characters, a
    hyphen after the eighth, and the hexadecimal digits of the bytes around
    it, so that different bytes give different identities. *)
Theorem newIdentity_tells_the_bytes_apart (random : Buffer) :
  String.length random = 16%nat ->
  String.length (newIdentity random) = 33%nat
  /\ String.get 8 (newIdentity random) = Some "-"%char
  /\ (substring 0 8 (newIdentity random) ++ substr_from (newIdentity random) 9)%string
     = toString_hex random
  /\ forall random',
       String.length random' = 16%nat ->
       newIdentity random' = newIdentity random -> random' = random.
Proof.
  intros L. split; [|split; [|split; [now apply newIdentity_hex|]]].
  - sixteen random. reflexivity.
  - sixteen random. reflexivity.
  - intros random' L' I. apply toString_hex_inj.
    rewrite <- (newIdentity_hex _ L), <- (newIdentity_hex _ L'). now rewrite I.
Qed.

(** ** The executor *)

Section Cells.

Context {J : Executor.JavaScript} {C : Executor.Converter}.

Implicit Types (this : Executor.State) (converted : Executor.ConvertResult)
  (src : string).

Lemma no_diagnostics converted :
  (0 <? length (Executor.diagnostics converted))%nat = false ->
  Executor.diagnostics converted = [].
Proof. now destruct (Executor.diagnostics converted). Qed.

(** The end of [execute]: it resolves to [true] with the declarations of
    the cell in [prevDecl], has run no code, and has touched [locals] at
    most to take the last expression out. *)
Lemma finish_spec converted this :
  exists l out,
    Executor.finish converted this
    = (true,
       Executor.mkState l (Executor.exports this)
         (Executor.or_empty (Executor.declOutput converted))
         (Executor.interruptPromise this),
       out)
    /\ forall code, ~ In (Executor.run code) out.
Proof.
  unfold Executor.finish. cbn [Executor.locals Executor.exports Executor.prevDecl
                                 Executor.interruptPromise].
  destruct (Executor.lastExpressionVar converted) as [x|].
  - destruct (negb (String.eqb x "") && _).
    + eexists. eexists. split; [reflexivity|]. intros code [I|[]]. discriminate.
    + eexists. eexists. split; [reflexivity|]. intros code [].
  - eexists. eexists. split; [reflexivity|]. intros code [].
Qed.

(** X18.  A cell that fails leaves the declarations alone. [prevDecl],
    against which the next cell is converted, is assigned only where
    [execute] resolves to [true], and then it holds the declarations of that
    cell; a cell with diagnostics, a cell whose code throws, a cell that is
    still awaiting and a cell whose awaited promise is rejected all leave it
    as it was, so that [inspect] and [complete] answer as before. *)
Theorem failed_cell_keeps_declarations src this p this' out :
  Executor.execute src this = (p, this', out) ->
  (p = Executor.Settled (Ok true) ->
   exists converted,
     Executor.convert (Executor.prevDecl this) src = Ok converted
     /\ Executor.diagnostics converted = []
     /\ Executor.prevDecl this'
        = Executor.or_empty (Executor.declOutput converted))
  /\ (p <> Executor.Settled (Ok true) ->
      Executor.prevDecl this' = Executor.prevDecl this
      /\ forall s n,
           Executor.inspect s n this' = Executor.inspect s n this
           /\ Executor.complete s n this' = Executor.complete s n this)
  /\ (forall converted promise n settled this1 ok this2 out',
         p = Executor.Awaiting converted promise n ->
         Executor.resume converted settled this1 = (ok, this2, out') ->
         Executor.prevDecl this2
         = if ok then Executor.or_empty (Executor.declOutput converted)
           else Executor.prevDecl this1).
Proof.
  intros X.
  assert (K : forall this0 : Executor.State,
             Executor.prevDecl this0 = Executor.prevDecl this ->
             Executor.prevDecl this0 = Executor.prevDecl this
             /\ forall s n,
                  Executor.inspect s n this0 = Executor.inspect s n this
                  /\ Executor.complete s n this0 = Executor.complete s n this).
  { intros this0 Q. split; [exact Q|]. intros s n.
    unfold Executor.inspect, Executor.complete. now rewrite Q. }
  assert (Rs : forall converted settled this1 ok this2 out',
             Executor.resume converted settled this1 = (ok, this2, out') ->
             Executor.prevDecl this2
             = if ok then Executor.or_empty (Executor.declOutput converted)
               else Executor.prevDecl this1).
  { intros converted [|e] this1 ok this2 out' Y; simpl in Y.
    - destruct (finish_spec converted this1) as [l [o [F _]]].
      rewrite F in Y. now injection Y as <- <- _.
    - now injection Y as <- <- _. }
  unfold Executor.execute in X.
  destruct (Executor.convert (Executor.prevDecl this) src) as [converted|e] eqn:Cv.
  2:{ injection X as <- <- _. split; [discriminate|]. split; [|eauto].
      intros _. now apply K. }
  destruct (0 <? length (Executor.diagnostics converted))%nat eqn:Dg.
  { injection X as <- <- _. split; [discriminate|]. split; [|eauto].
    intros _. now apply K. }
  apply no_diagnostics in Dg.
  destruct (Executor.blank (Executor.output converted)).
  { injection X as <- <- _. split; [|split; [intros N; now elim N | eauto]].
    intros _. exists converted. now repeat split. }
  cbv zeta in X. cbn [Executor.locals Executor.exports Executor.prevDecl
                        Executor.interruptPromise] in X.
  destruct (Executor.runInContext _ _) as [[ret|e] l].
  2:{ injection X as <- <- _. split; [discriminate|]. split; [|eauto].
      intros _. now apply K. }
  destruct (Executor.hasToplevelAwait converted && Executor.truthy ret).
  { injection X as <- <- _. split; [discriminate|]. split; [|eauto].
    intros _. now apply K. }
  destruct (finish_spec converted
              (Executor.mkState l (S (Executor.exports this))
                 (Executor.prevDecl this) (Executor.interruptPromise this)))
    as [l' [o [F _]]].
  rewrite F in X. injection X as <- <- _.
  split; [|split; [intros N; now elim N | eauto]].
  intros _. exists converted. now repeat split.
Qed.

(** X19.  Code reaches the virtual machine only from a cell the converter
    has no diagnostic for: what [execute] runs, if anything, is the output
    of the conversion wrapped in a function, once, before anything is
    printed. With a diagnostic nothing runs: the call resolves to [false]
    having written one line for each diagnostic, with the line and the
    column counted from one, and leaves the whole state as it was. *)
Theorem only_clean_code_is_run src this p this' out :
  Executor.execute src this = (p, this', out) ->
  (forall code,
      In (Executor.run code) out ->
      exists converted body rest,
        Executor.convert (Executor.prevDecl this) src = Ok converted
        /\ Executor.diagnostics converted = []
        /\ Executor.output converted = Some body /\ body <> ""
        /\ code = ((if Executor.hasToplevelAwait converted
                    then "(async function() { " else "(function() { ")
                   ++ body ++ Executor.newline ++ "})()")%string
        /\ out = Executor.run code :: rest
        /\ forall code', ~ In (Executor.run code') rest)
  /\ (forall converted,
         Executor.convert (Executor.prevDecl this) src = Ok converted ->
         Executor.diagnostics converted <> [] ->
         p = Executor.Settled (Ok false) /\ this' = this
         /\ out = map (fun diag =>
                         Executor.console_error
                           [Executor.Text "%d:%d - %s";
                            Executor.Number
                              (Executor.line (Executor.start diag) + 1);
                            Executor.Number
                              (Executor.character (Executor.start diag) + 1);
                            Executor.Text (Executor.messageText diag)])
                    (Executor.diagnostics converted)).
Proof.
  intros X. unfold Executor.execute in X.
  destruct (Executor.convert (Executor.prevDecl this) src) as [converted|e] eqn:Cv.
  2:{ injection X as <- <- <-. split; [intros code []|discriminate]. }
  destruct (0 <? length (Executor.diagnostics converted))%nat eqn:Dg.
  { injection X as <- <- <-. split.
    - intros code I. apply in_map_iff in I. destruct I as [d [Q _]]. discriminate.
    - intros c' Q _. injection Q as <-. now repeat split. }
  apply no_diagnostics in Dg.
  split; [|intros c' Q N; injection Q as <-; now elim N].
  unfold Executor.blank in X.
  destruct (Executor.output converted) as [body|] eqn:Ob;
    [|injection X as <- <- <-; intros code []].
  destruct (String.eqb body "") eqn:Eb; [injection X as <- <- <-; intros code []|].
  apply String.eqb_neq in Eb.
  assert (Wr : Executor.wrapped converted
               = ((if Executor.hasToplevelAwait converted
                   then "(async function() { " else "(function() { ")
                  ++ body ++ Executor.newline ++ "})()")%string).
  { unfold Executor.wrapped. now rewrite Ob. }
  cbv zeta in X. cbn [Executor.locals Executor.exports Executor.prevDecl
                        Executor.interruptPromise] in X.
  assert (G : forall rest,
             (forall code', ~ In (Executor.run code') rest) ->
             out = Executor.run (Executor.wrapped converted) :: rest ->
             forall code,
               In (Executor.run code) out ->
               exists converted0 body0 rest0,
                 Ok converted = Ok converted0
                 /\ Executor.diagnostics converted0 = []
                 /\ Executor.output converted0 = Some body0 /\ body0 <> ""
                 /\ code = ((if Executor.hasToplevelAwait converted0
                             then "(async function() { " else "(function() { ")
                            ++ body0 ++ Executor.newline ++ "})()")%string
                 /\ out = Executor.run code :: rest0
                 /\ forall code', ~ In (Executor.run code') rest0).
  { intros rest Nr -> code [I|I]; [|now elim (Nr code)].
    injection I as <-. exists converted, body, rest. now repeat split. }
  destruct (Executor.runInContext _ _) as [[ret|e] l].
  2:{ injection X as <- <- <-. eapply G; [|reflexivity].
      intros code' [I|[]]. discriminate. }
  destruct (Executor.hasToplevelAwait converted && Executor.truthy ret).
  { injection X as <- <- <-. eapply G; [|reflexivity]. intros code' []. }
  destruct (finish_spec converted
              (Executor.mkState l (S (Executor.exports this))
                 (Executor.prevDecl this) (Executor.interruptPromise this)))
    as [l' [o [F Nr]]].
  rewrite F in X. injection X as <- <- <-. eapply G; [exact Nr | reflexivity].
Qed.

(** X20.  The promise [execute] returns is rejected only when the converter
    itself throws, and then nothing was written and the state is as it was.
    Code that throws in the virtual machine does not reject it: the call
    resolves to [false] after writing what was thrown. And the promise is
    still pending when [execute] gives back control only for a cell with a
    top-level [await]. *)
Theorem execute_rejects_only_with_the_converter src this p this' out :
  Executor.execute src this = (p, this', out) ->
  (forall e,
      p = Executor.Settled (Throw e)
      <-> Executor.convert (Executor.prevDecl this) src = Throw e)
  /\ (forall e, p = Executor.Settled (Throw e) -> this' = this /\ out = [])
  /\ (forall converted e l,
         Executor.convert (Executor.prevDecl this) src = Ok converted ->
         Executor.diagnostics converted = [] ->
         Executor.blank (Executor.output converted) = false ->
         Executor.runInContext (Executor.wrapped converted) (Executor.locals this)
         = (Throw e, l) ->
         p = Executor.Settled (Ok false)
         /\ out = [Executor.run (Executor.wrapped converted);
                   Executor.console_error [Executor.Thrown e]])
  /\ (forall converted promise n,
         p = Executor.Awaiting converted promise n ->
         Executor.hasToplevelAwait converted = true).
Proof.
  intros X. unfold Executor.execute in X.
  destruct (Executor.convert (Executor.prevDecl this) src) as [converted|e0] eqn:Cv.
  2:{ injection X as <- <- <-.
      split; [intros e; split; congruence|].
      split; [now split|]. split; [discriminate | discriminate]. }
  split; [intros e; split; intros Q; [|discriminate]|].
  { exfalso. revert X Q. clear.
    destruct (0 <? _)%nat; [intros X Q; rewrite Q in X; discriminate|].
    destruct (Executor.blank _); [intros X Q; rewrite Q in X; discriminate|].
    cbv zeta. destruct (Executor.runInContext _ _) as [[ret|e1] l1];
      [|intros X Q; rewrite Q in X; discriminate].
    destruct (_ && _); [intros X Q; rewrite Q in X; discriminate|].
    destruct (Executor.finish _ _) as [[ok t] o].
    intros X Q; rewrite Q in X; discriminate. }
  split.
  { intros e Q. exfalso. revert X Q. clear.
    destruct (0 <? _)%nat; [intros X Q; rewrite Q in X; discriminate|].
    destruct (Executor.blank _); [intros X Q; rewrite Q in X; discriminate|].
    cbv zeta. destruct (Executor.runInContext _ _) as [[ret|e1] l1];
      [|intros X Q; rewrite Q in X; discriminate].
    destruct (_ && _); [intros X Q; rewrite Q in X; discriminate|].
    destruct (Executor.finish _ _) as [[ok t] o].
    intros X Q; rewrite Q in X; discriminate. }
  split.
  { intros c' e l Q Dg Bl Rn. injection Q as <-.
    rewrite Dg, Bl in X. cbv zeta in X.
    cbn [Executor.locals Executor.exports Executor.prevDecl
           Executor.interruptPromise length Nat.ltb Nat.leb] in X.
    rewrite Rn in X. injection X as <- _ <-. now split. }
  intros c' promise n Q. subst p.
  destruct (0 <? _)%nat; [discriminate|].
  destruct (Executor.blank _); [discriminate|].
  cbv zeta in X. destruct (Executor.runInContext _ _) as [[ret|e1] l1];
    [|discriminate].
  destruct (_ && _) eqn:Aw.
  - injection X as <- _ _ _ _. now apply andb_true_iff in Aw.
  - destruct (Executor.finish _ _) as [[ok t] o]. discriminate.
Qed.

(** X21.  [interrupt()] cancels the cell that is waiting, and only that one.
    A cell that awaits holds the interrupt promise that was pending when it
    was run; [interrupt()] rejects that promise, which settles the race the
    cell awaits, and the cell resolves to [false] having written the
    interruption and changed nothing. A cell run after the interrupt waits
    on a fresh promise, which the interrupt did not reject. *)
Theorem interrupt_cancels_the_waiting_cell src this converted promise n this1 out :
  Executor.execute src this = (Executor.Awaiting converted promise n, this1, out) ->
  Executor.race None n this1 = None
  /\ Executor.race None n (Executor.interrupt this1)
     = Some (Executor.Rejected Executor.interrupted)
  /\ (forall this2,
         Executor.resume converted (Executor.Rejected Executor.interrupted) this2
         = (false, this2,
            [Executor.console_error [Executor.Thrown Executor.interrupted]]))
  /\ (forall src' converted' promise' n' this3 out',
         Executor.execute src' (Executor.interrupt this1)
         = (Executor.Awaiting converted' promise' n', this3, out') ->
         n' = S n /\ Executor.race None n' this3 = None).
Proof.
  assert (A : forall s t c v k t' o,
             Executor.execute s t = (Executor.Awaiting c v k, t', o) ->
             k = Executor.interruptPromise t
             /\ Executor.interruptPromise t' = Executor.interruptPromise t).
  { intros s t c v k t' o X. unfold Executor.execute in X.
    destruct (Executor.convert _ _) as [cv|e]; [|discriminate].
    destruct (0 <? _)%nat; [discriminate|].
    destruct (Executor.blank _); [discriminate|].
    cbv zeta in X. cbn [Executor.locals Executor.exports Executor.prevDecl
                          Executor.interruptPromise] in X.
    destruct (Executor.runInContext _ _) as [[ret|e] l]; [|discriminate].
    destruct (_ && _).
    - injection X as _ _ <- <- _. now split.
    - destruct (finish_spec cv
                  (Executor.mkState l (S (Executor.exports t))
                     (Executor.prevDecl t) (Executor.interruptPromise t)))
        as [l' [o' [F _]]].
      rewrite F in X. discriminate. }
  intros X. destruct (A _ _ _ _ _ _ _ X) as [-> Q].
  unfold Executor.race, Executor.rejected, Executor.interrupt.
  cbn [Executor.interruptPromise]. rewrite Q.
  split; [now rewrite Nat.ltb_irrefl|].
  split; [now rewrite (proj2 (Nat.ltb_lt _ _) (Nat.lt_succ_diag_r _))|].
  split; [reflexivity|].
  intros src' converted' promise' n' this3 out' Y.
  destruct (A _ _ _ _ _ _ _ Y) as [-> Q'].
  cbn [Executor.interruptPromise] in Q' |- *. rewrite Q'.
  split; [reflexivity | now rewrite Nat.ltb_irrefl].
Qed.

End Cells.

(** ** The statements at concrete inputs *)

(** C3 as stated fails: the reply [createReply] builds for a request with
    [msg_id: "a1b2"] has that same [msg_id]. *)
Lemma reply_msg_id_is_the_request_s :
  ~ (forall rep w',
        createReply (R := Sample.runtime) (H := unit)
          (Sample.request "kernel_info_request" (VObj [])) (mkWorld tt 0 [])
        = (Ok rep, w') ->
        member (header rep) "msg_id"
        <> member (header (Sample.request "kernel_info_request" (VObj []))) "msg_id").
Proof.
  intros C. eapply C; [vm_compute; reflexivity|]. reflexivity.
Qed.


Import Sample.

(** One [execute_request] on the shell socket: busy on the broadcast
    socket, the reply on the shell socket, idle on the broadcast socket. *)
Example sample_execute_request :
  let run := ZmqServer.handleShellMessage server shell execute_frames (start accepting) in
  fst run = Ok tt
  /\ sockets (trace (snd run)) = [iopub; shell; iopub]
  /\ execCount (handler (snd run)) = 1%Z
  /\ clock (snd run) = 3%nat.
Proof. vm_compute. repeat split. Qed.

(** C1 at a batch signed with another key. *)
Lemma bad_signature_is_dropped_witness :
  exists e,
    ZmqServer.handleShellMessage server shell
      (frames "guess" (request "execute_request" (VObj [("code", VStr "1+1")])))
      (start accepting)
    = (Throw e,
       mkWorld (JupyterHandlerImpl.new true accepting) 0
         [Digest "secret"
            (skipn 3 (frames "guess"
                        (request "execute_request" (VObj [("code", VStr "1+1")]))))])
    /\ e = Error "invalid hmac 835764fd; want a014bc96".
Proof.
  destruct (bad_signature_is_dropped server shell
              (frames "guess" (request "execute_request" (VObj [("code", VStr "1+1")])))
              "835764fd" (start accepting))
    as [e [_ [B C]]].
  - vm_compute. reflexivity.
  - vm_compute. discriminate.
  - exists e. split; [exact B|]. rewrite C; [|reflexivity].
    vm_compute. reflexivity.
Defined.

(** C4 at a batch whose header frame is an open brace. *)
Lemma malformed_frame_is_dropped_witness :
  ZmqServer.handleShellMessage server shell
    ["client-1"; "<IDS|MSG>"; "a014bc96"; "{"; "{}"; "{}"; "{}"] (start accepting)
  = (Throw (SyntaxError "{"), start accepting).
Proof.
  destruct (malformed_frame_is_dropped server shell
              ["client-1"; "<IDS|MSG>"; "a014bc96"; "{"; "{}"; "{}"; "{}"]
              0 "{" (start accepting))
    as [f' [j' [L [F [_ [_ D]]]]]].
  - lia.
  - reflexivity.
  - vm_compute. reflexivity.
  - assert (j' = 0%nat) by lia. subst j'. simpl in F. injection F as <-.
    exact D.
Defined.

(** C2 at an [execute_request] whose content is [null], on which the
    handler throws: busy and idle are published all the same. *)
Lemma status_brackets_request_witness :
  exists what w' date date',
    ZmqServer.handleShellMessage server shell
      (frames "secret" (request "execute_request" VNull)) (start accepting)
    = (Throw (TypeError what), w')
    /\ published (trace w')
       = [wire "secret"
            (status_message "busy" (request "execute_request" VNull) date);
          wire "secret"
            (status_message "idle" (request "execute_request" VNull) date')].
Proof.
  edestruct (status_brackets_request server shell
               (frames "secret" (request "execute_request" VNull))
               (start accepting))
    as [r [wr [w' [mid P]]]].
  - vm_compute. reflexivity.
  - reflexivity.
  - discriminate.
  - cbv zeta in P. destruct P as [_ [Er [E [_ [Q _]]]]].
    vm_compute in Er. injection Er as <- <-.
    eexists. exists w'. eexists. eexists. split; [exact E|].
    rewrite Q. reflexivity.
Defined.

(** C2 as stated fails: a signed batch whose header frame is the JSON
    text [null] decodes, and the call publishes nothing for it, neither
    busy nor idle. *)
Lemma null_header_request_is_not_bracketed :
  let raw :=
    frames "secret"
      (mkZmqMessage "client-1" "<IDS|MSG>" "" VNull (VObj []) (VObj []) (VObj []) []) in
  (exists msg w1, fromRaw "secret" raw (start accepting) = (Ok msg, w1))
  /\ published
       (trace (snd (ZmqServer.handleShellMessage server shell raw (start accepting))))
     = [].
Proof.
  cbv zeta. split.
  - eexists. eexists. vm_compute. reflexivity.
  - vm_compute. reflexivity.
Qed.

(** C8 as stated fails: a request whose [msg_type] is the object
    [{toString: 0}] decodes and is of none of the four types; the
    template literal of the warning throws on it, so that no warning is
    written; busy and idle are published and the call throws. *)
Lemma unconvertible_type_is_not_warned_about :
  let unknown_request :=
    mkZmqMessage "client-1" "<IDS|MSG>" ""
      (VObj [("msg_id", VStr "a1b2"); ("username", VStr "ada");
             ("session", VStr "s-7");
             ("msg_type", VObj [("toString", VNum 0)]);
             ("version", VStr "5.3")])
      (VObj []) (VObj []) (VObj []) [] in
  let raw := frames "secret" unknown_request in
  let run := ZmqServer.handleShellMessage server shell raw (start accepting) in
  (exists msg w1,
      fromRaw "secret" raw (start accepting) = (Ok msg, w1)
      /\ header msg = header unknown_request
      /\ recognized (field (header msg) "msg_type") = false)
  /\ fst run = Throw (TypeError "Cannot convert object to primitive value")
  /\ ~ (exists args, In (Console warn args) (trace (snd run)))
  /\ sockets (trace (snd run)) = [iopub; iopub].
Proof.
  cbv zeta. split.
  - eexists. eexists. split; [vm_compute; reflexivity|]. split; reflexivity.
  - split; [vm_compute; reflexivity|]. split; [|vm_compute; reflexivity].
    intros [args I]. vm_compute in I.
    repeat (destruct I as [I|I]; [discriminate|]). exact I.
Qed.

(** C8, as the code has it, at a [frobnicate_request]. *)
Lemma unrecognized_request_gets_no_reply_witness :
  exists w',
    ZmqServer.handleShellMessage server shell
      (frames "secret" (request "frobnicate_request" (VObj []))) (start accepting)
    = (Ok tt, w')
    /\ handler w' = JupyterHandlerImpl.new true accepting
    /\ In (Console warn ["unknown msg_type: frobnicate_request"]) (trace w')
    /\ length (published (trace w')) = 2%nat.
Proof.
  edestruct (unrecognized_request_gets_no_reply server shell
               (frames "secret" (request "frobnicate_request" (VObj [])))
               (start accepting))
    as [r [w' [logged P]]].
  - vm_compute. reflexivity.
  - reflexivity.
  - reflexivity.
  - cbv zeta in P. destruct P as [E [T [Hh [_ [Q [[-> ->] _]]]]]].
    exists w'. split; [exact E|]. split; [exact Hh|].
    rewrite T. split.
    + apply in_or_app. right. apply in_or_app. right. now left.
    + rewrite published_app, Q. reflexivity.
Defined.

(** C7, at the input where the code departs from it.  A
    [kernel_info_request] whose routing identity is the two bytes FF 41,
    which are not UTF-8: the batch decodes (the signature does not cover
    the routing frames) and is answered on the shell socket, and the
    first frame of the reply is EF BF BD 41, the UTF-8 text of what
    [toString] read, not the identity the request came with.  The
    delimiter, which is text, comes back as it was, and the parent header
    frame of the reply is the header frame of the request. *)
Theorem binary_identity_is_not_mirrored :
  let raw :=
    bytes [255; 65]
    :: tl (frames "secret" (request "kernel_info_request" (VObj []))) in
  exists w' reply,
    ZmqServer.handleShellMessage server shell raw (start accepting) = (Ok tt, w')
    /\ sockets (trace w') = [iopub; shell; iopub]
    /\ In (Send shell reply) (trace w')
    /\ nth_error raw 0 = Some (bytes [255; 65])
    /\ nth_error reply 0 = Some (bytes [239; 191; 189; 65])
    /\ nth_error reply 0 <> nth_error raw 0
    /\ nth_error reply 1 = nth_error raw 1
    /\ nth_error reply 4 = nth_error raw 3.
Proof.
  cbv zeta. eexists. eexists.
  split; [vm_compute; reflexivity|].
  split; [reflexivity|].
  split; [do 4 right; left; reflexivity|].
  split; [reflexivity|]. split; [reflexivity|].
  split; [discriminate|]. split; reflexivity.
Qed.

(** A [kernel_info_request] that came in on the control socket. *)
Lemma reply_mirrors_request_witness :
  exists w' rep,
    ZmqServer.handleShellMessage server control
      (frames "secret" (request "kernel_info_request" (VObj []))) (start accepting)
    = (Ok tt, w')
    /\ In (Send control (wire "secret" rep)) (trace w')
    /\ identity rep = "client-1" /\ delim rep = "<IDS|MSG>"
    /\ parent rep = header (request "kernel_info_request" (VObj []))
    /\ field (header rep) "session" = VStr "s-7"
    /\ field (header rep) "username" = VStr "ada"
    /\ field (header rep) "msg_type" = VStr "kernel_info_reply".
Proof.
  edestruct (reply_mirrors_request server control
               (frames "secret" (request "kernel_info_request" (VObj [])))
               (start accepting))
    as [_ [_ [r [w' [sent [E [T [_ P]]]]]]]].
  - vm_compute. reflexivity.
  - reflexivity.
  - edestruct P as [-> [_ S]]; [reflexivity | reflexivity |].
    exists w'. eexists. split; [exact E|]. split.
    + rewrite T, S. apply in_or_app. right. apply in_or_app. right.
      apply in_or_app. right. apply in_or_app. left. right. left. reflexivity.
    + repeat split.
Defined.

(** C3, as the code has it, at a request with [msg_id: "a1b2"]. *)
Lemma createReply_copies_msg_id_witness :
  exists rep,
    createReply (request "execute_request" (VObj [])) (start accepting)
    = (Ok rep, mkWorld (JupyterHandlerImpl.new true accepting) 1 [])
    /\ field (header rep) "msg_id" = VStr "a1b2".
Proof.
  destruct (createReply_copies_msg_id
              (request "execute_request" (VObj [])) (start accepting))
    as [rep [E [I _]]].
  - reflexivity.
  - exists rep. split; [exact E | exact I].
Defined.

(** C10 at a [shutdown_request] that asks for a restart. *)
Lemma shutdown_reply_never_restarts_witness :
  exists w',
    ZmqServer.handleShutdown server shell
      (request "shutdown_request" (VObj [("restart", VBool true)])) (start accepting)
    = (Ok tt, w')
    /\ In (Send shell
             (wire "secret"
                (reply_message "shutdown_reply" (VObj [("restart", VBool false)])
                   (request "shutdown_request" (VObj [("restart", VBool true)]))
                   (toISOString 0))))
          (trace w').
Proof.
  destruct (shutdown_reply_never_restarts server shell
              (request "shutdown_request" (VObj [("restart", VBool true)]))
              (start accepting))
    as [_ [w' [E [T _]]]].
  - reflexivity.
  - exists w'. split; [exact E|]. rewrite T.
    apply in_or_app. right. right. right. left. reflexivity.
Defined.


(** A signed batch whose header frame is [null]. *)
Lemma null_header_is_dropped_witness :
  exists what,
    ZmqServer.handleShellMessage server shell
      (frames "secret"
         (mkZmqMessage "client-1" "<IDS|MSG>" "" VNull (VObj []) (VObj []) (VObj []) []))
      (start accepting)
    = (Throw (TypeError what),
       mkWorld (JupyterHandlerImpl.new true accepting) 1
         [Digest "secret" ["null"; "{}"; "{}"; "{}"]]).
Proof.
  edestruct (null_header_is_dropped server shell
               (frames "secret"
                  (mkZmqMessage "client-1" "<IDS|MSG>" "" VNull (VObj []) (VObj [])
                     (VObj []) []))
               (start accepting))
    as [what E].
  - vm_compute. reflexivity.
  - reflexivity.
  - exists what. exact E.
Defined.

(** An [execute_request] with content [null]: the handler throws on
    reading [req.code]. *)
Lemma failed_handler_gets_idle_and_no_reply_witness :
  exists e w',
    ZmqServer.handleShellMessage server shell
      (frames "secret" (request "execute_request" VNull)) (start accepting)
    = (Throw e, w')
    /\ length (published (trace w')) = 2%nat
    /\ forall f, ~ In (Send shell f) (trace w').
Proof.
  eexists. eexists. split.
  - eapply (failed_handler_gets_idle_and_no_reply server shell
              (frames "secret" (request "execute_request" VNull)) (start accepting)).
    + vm_compute. reflexivity.
    + reflexivity.
    + reflexivity.
    + reflexivity.
  - split; [reflexivity|].
    intros f I. vm_compute in I.
    repeat (destruct I as [I|I]; [discriminate|]). exact I.
Defined.

(** The round trip of a reply. *)
Lemma fromRaw_wire_no_extra_witness :
  exists m' w',
    fromRaw "secret"
      (wire "secret" (reply_to (request "execute_request" (VObj [])) "2019-11-02"))
      (start accepting)
    = (Ok m', w')
    /\ header m' = header (reply_to (request "execute_request" (VObj [])) "2019-11-02")
    /\ content m' = VObj [].
Proof.
  edestruct (fromRaw_wire_no_extra "secret"
               (reply_to (request "execute_request" (VObj [])) "2019-11-02")
               (start accepting))
    as [m' [E [_ [_ [Hh [_ [_ [Hc _]]]]]]]];
    try (vm_compute; reflexivity).
  exists m'. eexists. split; [exact E|]. split; [exact Hh | exact Hc].
Defined.

(** C5, as the code has it, at a message with two extra buffers. *)
Lemma round_trip_serializes_extras_witness :
  exists m' w',
    fromRaw "secret"
      (wire "secret"
         (mkZmqMessage "client-1" "<IDS|MSG>" ""
            (header (request "execute_request" (VObj [])))
            (VObj []) (VObj []) (VObj [("code", VStr "1+1")]) ["a"; "bc"]))
      (start accepting)
    = (Ok m', w')
    /\ identity m' = "client-1"
    /\ content m' = VObj [("code", VStr "1+1")]
    /\ extra m' = [stringify (Buffer_toJSON "a"); stringify (Buffer_toJSON "bc")].
Proof.
  edestruct (round_trip_serializes_extras "secret"
               (mkZmqMessage "client-1" "<IDS|MSG>" ""
                  (header (request "execute_request" (VObj [])))
                  (VObj []) (VObj []) (VObj [("code", VStr "1+1")]) ["a"; "bc"])
               (start accepting))
    as [m' [E [_ [_ [Hi [_ [_ [_ [_ [Hc [X _]]]]]]]]]]];
    try (vm_compute; reflexivity).
  exists m'. eexists. split; [exact E|]. split; [exact Hi|].
  split; [exact Hc | exact X].
Defined.

(** A [kernel_info_request] to a handler constructed without the flag. *)
Lemma kernel_info_reply_follows_flag_witness :
  exists w',
    ZmqServer.handleShellMessage server shell
      (frames "secret" (request "kernel_info_request" (VObj [])))
      (mkWorld (JupyterHandlerImpl.new false accepting) 0 [])
    = (Ok tt, w')
    /\ handler w' = JupyterHandlerImpl.new false accepting
    /\ In (Send shell
             (wire "secret"
                (reply_message "kernel_info_reply"
                   (VObj [("protocol_version", VStr "5.3");
                          ("implementation", VStr "jslab");
                          ("implementation_version", VStr "1.0.0");
                          ("language_info",
                            VObj [("name", VStr "javascript");
                                  ("version", VStr "");
                                  ("mimetype", VStr "");
                                  ("file_extension", VStr ".js")]);
                          ("banner", VStr "TypeScript")])
                   (request "kernel_info_request" (VObj []))
                   (toISOString 1))))
          (trace w').
Proof.
  eexists. split.
  - eapply (kernel_info_reply_follows_flag server shell
              (frames "secret" (request "kernel_info_request" (VObj [])))
              (mkWorld (JupyterHandlerImpl.new false accepting) 0 [])).
    + vm_compute. reflexivity.
    + reflexivity.
    + reflexivity.
  - split; [reflexivity|].
    cbn [trace]. apply in_or_app. right. apply in_or_app. right.
    apply in_or_app. left. right. left. reflexivity.
Defined.

(** A decoded batch carries the tag of its body frames. *)
Lemma decoded_batch_is_authentic_witness :
  nth_error execute_frames 2 = Some (tag "secret" (skipn 3 execute_frames)).
Proof.
  edestruct (decoded_batch_is_authentic (H := unit) "secret" execute_frames
               (mkWorld tt 0 []))
    as [S2 _].
  - vm_compute. reflexivity.
  - exact S2.
Defined.

(** Two failing cells with a [kernel_info_request] on the control socket
    between them. *)
Lemma later_execution_counts_higher_witness :
  exists c1 c2 date1 date2,
    In (Send shell
          (wire "secret"
             (reply_message "execute_reply"
                (VObj [("status", VStr "ok"); ("execution_count", VNum c1)])
                (mkZmqMessage "client-1" "<IDS|MSG>" "a00fa5fb"
                   (header (request "execute_request" VNull))
                   (VObj []) (VObj []) (VObj [("code", VStr "1 +")]) [])
                date1)))
       (trace (snd (ZmqServer.handleShellMessage server shell execute_frames (start rejecting))))
    /\ In (Send shell
             (wire "secret"
                (reply_message "execute_reply"
                   (VObj [("status", VStr "ok"); ("execution_count", VNum c2)])
                   (mkZmqMessage "client-1" "<IDS|MSG>" "a00fa5fb"
                      (header (request "execute_request" VNull))
                      (VObj []) (VObj []) (VObj [("code", VStr "1 +")]) [])
                   date2)))
          (trace
             (snd (ZmqServer.handleShellMessage server shell execute_frames
                     (serve server
                        [(control, frames "secret" (request "kernel_info_request" (VObj [])))]
                        (snd (ZmqServer.handleShellMessage server shell execute_frames
                                (start rejecting)))))))
    /\ (c1 < c2)%Z.
Proof.
  eapply (later_execution_counts_higher server shell shell execute_frames
            execute_frames
            [(control, frames "secret" (request "kernel_info_request" (VObj [])))]
            (start rejecting)).
  - vm_compute. reflexivity.
  - vm_compute. reflexivity.
  - reflexivity.
  - reflexivity.
  - reflexivity.
  - reflexivity.
  - reflexivity.
  - reflexivity.
  - vm_compute. reflexivity.
Defined.

(** A batch of two frames. *)
Lemma undecoded_is_dropped_witness :
  ZmqServer.handleShellMessage server shell ["client-1"; "<IDS|MSG>"] (start accepting)
  = (Throw (TypeError "Cannot read property 'toString' of undefined"),
     start accepting).
Proof.
  apply (undecoded_is_dropped server shell ["client-1"; "<IDS|MSG>"]
           (start accepting)).
  reflexivity.
Defined.

(** The frames of a request to execute a cell, on the control socket and
    on the shell socket. *)
Lemma shell_and_control_are_served_alike_witness :
  exists r h n new,
    ZmqServer.handleShellMessage server shell execute_frames (start accepting)
    = (r, mkWorld h n new)
    /\ ZmqServer.handleShellMessage server control execute_frames (start accepting)
       = (r, mkWorld h n (map (redirect shell control) new)).
Proof.
  destruct (shell_and_control_are_served_alike server shell control execute_frames
              (start accepting))
    as [r [h [n [new [A B]]]]].
  - discriminate.
  - exists r, h, n, new. split; [exact A | exact B].
Defined.

(** A cell, a [kernel_info_request] on the control socket, and a batch of
    two frames. *)
Lemma statuses_come_in_pairs_witness :
  exists pairs,
    published
      (trace
         (serve server
            [(shell, execute_frames);
             (control, frames "secret" (request "kernel_info_request" (VObj [])));
             (shell, ["client-1"; "<IDS|MSG>"])]
            (start accepting)))
    = flat_map (bracket "secret") pairs
    /\ (length pairs <= 3)%nat.
Proof.
  destruct (statuses_come_in_pairs server
              [(shell, execute_frames);
               (control, frames "secret" (request "kernel_info_request" (VObj [])));
               (shell, ["client-1"; "<IDS|MSG>"])]
              (start accepting))
    as [pairs [P L]].
  - repeat constructor; discriminate.
  - exists pairs. split; [exact P | exact L].
Defined.

(** Six frames, every body an empty object. *)
Lemma short_batch_is_rejected_witness :
  fromRaw "secret" ["client-1"; "<IDS|MSG>"; "a014bc96"; "{}"; "{}"; "{}"]
    (start accepting)
  = (Throw (TypeError "Cannot read property 'toString' of undefined"),
     start accepting).
Proof.
  destruct (short_batch_is_rejected "secret"
              ["client-1"; "<IDS|MSG>"; "a014bc96"; "{}"; "{}"; "{}"]
              (start accepting))
    as [e [D _]].
  - simpl. lia.
  - rewrite D. f_equal. vm_compute in D. now injection D as <-.
Defined.

(** The kernel started as [jslab], asked for its info after a cell. *)
Lemma started_kernel_stays_ts_witness :
  exists w' date,
    ZmqServer.handleShellMessage server control
      (frames "secret" (request "kernel_info_request" (VObj [])))
      (serve server [(shell, execute_frames)] (start accepting))
    = (Ok tt, w')
    /\ In (Send control
             (wire "secret"
                (reply_message "kernel_info_reply"
                   (KernelInfoReply_object
                      (mkKernelInfoReply "5.3" "tslab" "1.0.0"
                         (mkLanguageInfo "javascript" "" "" ".ts") "TypeScript"))
                   (request "kernel_info_request" (VObj []))
                   date)))
          (trace w').
Proof.
  eexists. eexists. split.
  - eapply (started_kernel_stays_ts server
              ["node"; "/usr/local/bin/jslab"; "conn.json"] accepting
              (JupyterHandlerImpl.new true accepting) (VStr "conn.json")
              [(shell, execute_frames)] 0 [] control
              (frames "secret" (request "kernel_info_request" (VObj [])))).
    + reflexivity.
    + vm_compute. reflexivity.
    + reflexivity.
    + reflexivity.
  - cbn [trace]. apply in_or_app. right. apply in_or_app. right.
    apply in_or_app. left. right. left. reflexivity.
Defined.

(** An [is_complete_request] about the cell [1 +]. *)
Lemma is_complete_request_is_answered_complete_witness :
  exists w',
    ZmqServer.handleShellMessage server shell
      (frames "secret" (request "is_complete_request" (VObj [("code", VStr "1 +")])))
      (start accepting)
    = (Ok tt, w')
    /\ handler w' = JupyterHandlerImpl.new true accepting
    /\ sockets (trace w') = [iopub; shell; iopub].
Proof.
  eexists. split.
  - eapply (is_complete_request_is_answered_complete server shell
              (frames "secret"
                 (request "is_complete_request" (VObj [("code", VStr "1 +")])))
              (start accepting)).
    + vm_compute. reflexivity.
    + reflexivity.
    + reflexivity.
  - split; reflexivity.
Defined.

(** The bytes of [0123456789abcdef]. *)
Lemma newIdentity_tells_the_bytes_apart_witness :
  String.length (newIdentity "0123456789abcdef") = 33%nat
  /\ String.get 8 (newIdentity "0123456789abcdef") = Some "-"%char.
Proof.
  destruct (newIdentity_tells_the_bytes_apart "0123456789abcdef" eq_refl)
    as [A [B _]].
  split; [exact A | exact B].
Defined.

Import SampleCells.

(** The cell [1 +] after the cell [let x = 1 + 1; x]. *)
Lemma failed_cell_keeps_declarations_witness :
  exists this' out,
    Executor.execute "1 +" after_x
    = (Executor.Settled (Ok false), this', out)
    /\ Executor.prevDecl this' = "declare let x: number;".
Proof.
  edestruct (failed_cell_keeps_declarations "1 +" after_x)
    as [_ [K _]].
  - vm_compute. reflexivity.
  - eexists. eexists. split; [vm_compute; reflexivity|].
    destruct K as [Q _]; [discriminate | exact Q].
Defined.

(** The cell [let x = 1 + 1; x]. *)
Lemma only_clean_code_is_run_witness :
  exists p this' rest,
    Executor.execute "let x = 1 + 1; x" Executor.createExecutor
    = (p, this',
       Executor.run
         ("(function() { exports.x = 1 + 1; exports.tsLastExpr0 = x"
            ++ Executor.newline ++ "})()")%string
       :: rest)
    /\ forall code', ~ In (Executor.run code') rest.
Proof.
  edestruct (only_clean_code_is_run "let x = 1 + 1; x" Executor.createExecutor)
    as [K _].
  - vm_compute. reflexivity.
  - edestruct K as [converted [body [rest [_ [_ [_ [_ [_ [Q N]]]]]]]]];
      [left; reflexivity|].
    injection Q as Q. eexists. eexists. exists rest. split; [|exact N].
    rewrite <- Q. reflexivity.
Defined.

(** A cell whose code throws. *)
Lemma execute_rejects_only_with_the_converter_witness :
  exists this',
    Executor.execute "throw new Error('boom')" Executor.createExecutor
    = (Executor.Settled (Ok false), this',
       [Executor.run
          ("(function() { throw new Error('boom')" ++ Executor.newline ++ "})()")%string;
        Executor.console_error [Executor.Thrown (Error "boom")]]).
Proof.
  edestruct (execute_rejects_only_with_the_converter "throw new Error('boom')"
               Executor.createExecutor)
    as [_ [_ [K _]]].
  - vm_compute. reflexivity.
  - edestruct K as [P O]; [vm_compute; reflexivity | reflexivity | reflexivity
                          | vm_compute; reflexivity |].
    eexists. vm_compute. reflexivity.
Defined.

(** A cell that awaits, interrupted. *)
Lemma interrupt_cancels_the_waiting_cell_witness :
  exists converted promise this1 out,
    Executor.execute "await sleep(10)" after_x
    = (Executor.Awaiting converted promise 0, this1, out)
    /\ Executor.race None 0 (Executor.interrupt this1)
       = Some (Executor.Rejected Executor.interrupted)
    /\ Executor.resume converted (Executor.Rejected Executor.interrupted)
         (Executor.interrupt this1)
       = (false, Executor.interrupt this1,
          [Executor.console_error [Executor.Thrown Executor.interrupted]]).
Proof.
  eexists. eexists. eexists. eexists.
  split; [vm_compute; reflexivity|].
  edestruct (interrupt_cancels_the_waiting_cell "await sleep(10)"
               after_x)
    as [_ [A [B _]]].
  - vm_compute. reflexivity.
  - split; [exact A | apply B].
Defined.
